(** * Contacts backend: authentication core and contact repository

    A shallow embedding of the parts of the contacts-management backend
    that carry invariants:

    - [src/repository/contacts.py]  (class [ContactRepository]),
    - [src/repository/users.py]     (class [UserRepository]),
    - [src/services/auth.py]        (token issue / bearer resolution),
    - [src/api/auth.py]             (the login and reset-password routes).

    Conventions.  A database table is the list of its rows, in storage
    order.  A Python exception is a value of [exn]; a function that may
    raise returns a [result].  Code that mutates the database or the cache
    returns the new store next to its result.  Wall-clock time is a number
    of whole seconds since the epoch ([Z]), which is also the resolution
    of the [exp] claim of a token. *)

From Stdlib Require Import ZArith Lia Bool List.
From stdpp Require Import base option list gmap strings pretty.

Import ListNotations.
Local Open Scope string_scope.
Local Open Scope list_scope.
Local Open Scope Z_scope.

(** ** Python values, exceptions and results *)

Module Py.

(** The JSON values that occur as claims of a token payload. *)
Inductive json :=
| JNull
| JBool (b : bool)
| JInt (n : Z)
| JStr (s : string).

(** Subclasses of [jose.JWTError], all caught by [except JWTError]. *)
Inductive jwt_error :=
| JWSInvalid            (* not a compact JWS, algorithm refused, bad signature *)
| ExpiredSignatureError (* the [exp] claim lies in the past *)
| JWTClaimsError.       (* a registered claim has the wrong format *)

Inductive exn :=
| HTTPException (status_code : Z) (detail : string)
| JWTError (kind : jwt_error)
| KeyError (key : string)
| AttributeError (message : string)
| TypeError (message : string)
| RedisError
| JSONDecodeError
| ValidationError
| IntegrityError
| MultipleResultsFound
| NoResultFound.

Inductive result (A : Type) :=
| Ok (a : A)
| Raise (e : exn).
Arguments Ok {A} a.
Arguments Raise {A} e.

(** Sequencing: an exception raised by the first computation skips the
    rest, as a Python statement sequence does. *)
#[global] Instance result_ret : MRet result := fun _ a => Ok a.
#[global] Instance result_bind : MBind result := fun _ _ k r =>
  match r with
  | Ok a => k a
  | Raise e => Raise e
  end.

(** [str(v)], as an f-string formats a value. *)
Definition str (v : json) : string :=
  match v with
  | JNull => "None"
  | JBool true => "True"
  | JBool false => "False"
  | JInt n => pretty n
  | JStr s => s
  end.

(** Truthiness of a [str] (or [bytes]) object: non-empty. *)
Definition truthy (s : string) : bool :=
  match s with
  | EmptyString => false
  | String _ _ => true
  end.

#[global] Instance json_eq_dec : EqDecision json.
Proof. solve_decision. Defined.

#[global] Instance jwt_error_eq_dec : EqDecision jwt_error.
Proof. solve_decision. Defined.

#[global] Instance exn_eq_dec : EqDecision exn.
Proof. solve_decision. Defined.

End Py.
Import Py.

(** ** Calendar dates

    [datetime] values are used by the program only through their date
    part: [.month], [.day] and [+ timedelta(days=7)]. *)

Module Calendar.

Record date := Date { year : Z; month : Z; day : Z }.

#[global] Instance date_eq_dec : EqDecision date.
Proof. solve_decision. Defined.

Definition is_leap (y : Z) : bool :=
  ((y mod 4 =? 0) && negb (y mod 100 =? 0)) || (y mod 400 =? 0).

Definition days_in_month (y m : Z) : Z :=
  if m =? 2 then (if is_leap y then 29 else 28)
  else if (m =? 4) || (m =? 6) || (m =? 9) || (m =? 11) then 30
  else 31.

Definition next_day (d : date) : date :=
  if day d <? days_in_month (year d) (month d)
  then Date (year d) (month d) (day d + 1)
  else if month d <? 12
       then Date (year d) (month d + 1) 1
       else Date (year d + 1) 1 1.

(** [d + timedelta(days=n)] for a non-negative [n]. *)
Fixpoint add_days (d : date) (n : nat) : date :=
  match n with
  | O => d
  | S n' => add_days (next_day d) n'
  end.

(** A date that exists in the Gregorian calendar. *)
Definition valid (d : date) : bool :=
  (1 <=? month d) && (month d <=? 12) &&
  (1 <=? day d) && (day d <=? days_in_month (year d) (month d)).

(** The date with day [r] in the month that follows the month of [d]. *)
Definition rollover (d : date) (r : Z) : date :=
  if month d <? 12 then Date (year d) (month d + 1) r
  else Date (year d + 1) 1 r.

End Calendar.
Import Calendar.

(** ** The ORM models

    [src/database/models.py] and [src/schemas.py] are not among the
    sources; the columns are those the repositories, the routes and the
    unit tests read and write. *)

Module Models.

Inductive UserRole := USER | ADMIN.

Record User := mkUser {
  id : Z;
  username : string;
  email : string;
  hashed_password : string;
  role : UserRole;
  confirmed : bool;
  avatar : option string
}.

(** A row of the contacts table.  Attributes of the Python object may
    hold [None] whatever the column allows; whether the row can be
    stored is decided at commit time. *)
Record Contact := mkContact {
  contact_id : Z;
  user_id : Z;
  first_name : option string;
  last_name : option string;
  contact_email : option string;
  phone : option string;
  birthday : option date;
  extra_info : option string
}.

(** A pydantic field: left unset by the client, or set (possibly to
    [None]).  [exclude_unset=True] keeps the set ones. *)
Inductive field (A : Type) :=
| Unset
| Given (v : A).
Arguments Unset {A}.
Arguments Given {A} v.

(** [ContactCreate] and [ContactUpdate] carry the same fields. *)
Record ContactData := mkContactData {
  d_first_name : field (option string);
  d_last_name : field (option string);
  d_email : field (option string);
  d_phone : field (option string);
  d_birthday : field (option date);
  d_extra_info : field (option string)
}.

#[global] Instance UserRole_eq_dec : EqDecision UserRole.
Proof. solve_decision. Defined.

#[global] Instance User_eq_dec : EqDecision User.
Proof. solve_decision. Defined.

#[global] Instance Contact_eq_dec : EqDecision Contact.
Proof. solve_decision. Defined.

End Models.
Import Models.

(** ** Query results *)

Module Query.

(** [Result.scalar_one_or_none()]: the only row, [None] when there is
    none, and an exception when the query matched several rows. *)
Definition scalar_one_or_none {A} (rows : list A) : result (option A) :=
  match rows with
  | [] => Ok None
  | [r] => Ok (Some r)
  | _ :: _ :: _ => Raise MultipleResultsFound
  end.

End Query.

(** ** [src/repository/contacts.py] *)

Module ContactRepository.

Section Repository.

(** What the storage engine decides: whether a state of the contacts
    table satisfies the constraints of its schema (a commit that would
    leave the table in a state refused here raises [IntegrityError]),
    and the primary key it generates for a new row. *)
Variable integrity : list Contact -> bool.
Variable next_id : list Contact -> Z.

(** [select(Contact).where(Contact.id == contact_id,
                           Contact.user_id == user.id)] *)
Definition get_contact (db : list Contact) (cid : Z) (user : User)
  : result (option Contact) :=
  Query.scalar_one_or_none
    (List.filter
       (fun c => (contact_id c =? cid) && (user_id c =? id user)) db).

(** A field left out of the payload takes the column default, NULL. *)
Definition or_null {A} (f : field (option A)) : option A :=
  match f with
  | Unset => None
  | Given v => v
  end.

(** The [Contact] built from the keyword arguments
    [contact_data.model_dump(exclude_unset=True)] and
    [user_id=user.id]. *)
Definition new_contact (db : list Contact) (data : ContactData)
    (user : User) : Contact :=
  {| contact_id := next_id db;
     user_id := id user;
     first_name := or_null (d_first_name data);
     last_name := or_null (d_last_name data);
     contact_email := or_null (d_email data);
     phone := or_null (d_phone data);
     birthday := or_null (d_birthday data);
     extra_info := or_null (d_extra_info data) |}.

Definition create_contact (db : list Contact) (data : ContactData)
    (user : User) : list Contact * result (option Contact) :=
  let c := new_contact db data user in
  let db' := db ++ [c] in
  if integrity db'
  then (db', Ok (Some c))       (* commit, refresh, return new_contact *)
  else (db, Ok None).           (* IntegrityError: rollback, return None *)

(** One [(key, value)] item of [contact_data.dict(exclude_unset=True)]. *)
Inductive item :=
| first_name_item (v : option string)
| last_name_item (v : option string)
| email_item (v : option string)
| phone_item (v : option string)
| birthday_item (v : option date)
| extra_info_item (v : option string).

Definition item_of {A} (mk : A -> item) (f : field A) : list item :=
  match f with
  | Unset => []
  | Given v => [mk v]
  end.

(** [contact_data.dict(exclude_unset=True).items()], in the order the
    fields are declared. *)
Definition items (data : ContactData) : list item :=
  item_of first_name_item (d_first_name data)
  ++ item_of last_name_item (d_last_name data)
  ++ item_of email_item (d_email data)
  ++ item_of phone_item (d_phone data)
  ++ item_of birthday_item (d_birthday data)
  ++ item_of extra_info_item (d_extra_info data).

(** [setattr(contact, key, value)] *)
Definition setattr (c : Contact) (kv : item) : Contact :=
  match kv with
  | first_name_item v =>
      mkContact (contact_id c) (user_id c) v (last_name c)
        (contact_email c) (phone c) (birthday c) (extra_info c)
  | last_name_item v =>
      mkContact (contact_id c) (user_id c) (first_name c) v
        (contact_email c) (phone c) (birthday c) (extra_info c)
  | email_item v =>
      mkContact (contact_id c) (user_id c) (first_name c) (last_name c)
        v (phone c) (birthday c) (extra_info c)
  | phone_item v =>
      mkContact (contact_id c) (user_id c) (first_name c) (last_name c)
        (contact_email c) v (birthday c) (extra_info c)
  | birthday_item v =>
      mkContact (contact_id c) (user_id c) (first_name c) (last_name c)
        (contact_email c) (phone c) v (extra_info c)
  | extra_info_item v =>
      mkContact (contact_id c) (user_id c) (first_name c) (last_name c)
        (contact_email c) (phone c) (birthday c) v
  end.

(** The UPDATE the unit of work flushes for a modified object: the row
    with its primary key is replaced. *)
Definition store (db : list Contact) (c : Contact) : list Contact :=
  List.map (fun r => if contact_id r =? contact_id c then c else r) db.

Definition update_contact (db : list Contact) (cid : Z)
    (data : ContactData) (user : User)
  : list Contact * result (option Contact) :=
  match get_contact db cid user with
  | Raise e => (db, Raise e)
  | Ok None => (db, Ok None)
  | Ok (Some contact) =>
      let contact' := fold_left setattr (items data) contact in
      let db' := store db contact' in
      if integrity db'
      then (db', Ok (Some contact'))   (* commit, refresh *)
      else (db, Ok None)               (* rollback, return None *)
  end.

(** The WHERE clause of [get_contacts_birthday_soon]; a NULL birthday
    makes both comparisons NULL, and the row is not selected. *)
Definition birthday_soon (today seven_days_later : date) (c : Contact)
  : bool :=
  match birthday c with
  | None => false
  | Some b =>
      ((month b =? month today) && (day today <=? day b))
      || ((month b =? month seven_days_later)
          && (day b <=? day seven_days_later))
  end.

(** [today] stands for [datetime.today()]. *)
Definition get_contacts_birthday_soon (db : list Contact) (user : User)
    (today : date) : list Contact :=
  let seven_days_later := add_days today 7 in
  List.filter
    (fun c => (user_id c =? id user)
              && birthday_soon today seven_days_later c) db.

(** [select(Contact).where(Contact.user_id == user.id)
       .offset(skip).limit(limit)], for the non-negative [skip] and
    [limit] that OFFSET and LIMIT accept. *)
Definition get_contacts (db : list Contact) (user : User) (skip limit : nat)
  : list Contact :=
  firstn limit
    (skipn skip (List.filter (fun c => user_id c =? id user) db)).

(** The DELETE flushed for [self.db.delete(contact)]: the row with the
    contact's primary key is removed. *)
Definition remove (db : list Contact) (c : Contact) : list Contact :=
  List.filter (fun r => negb (contact_id r =? contact_id c)) db.

Definition delete_contact (db : list Contact) (cid : Z) (user : User)
  : list Contact * result (option Contact) :=
  match get_contact db cid user with
  | Raise e => (db, Raise e)
  | Ok None => (db, Ok None)
  | Ok (Some contact) => (remove db contact, Ok (Some contact))
  end.

(** The ILIKE operator of the storage engine: [ilike value pattern]. *)
Variable ilike : string -> string -> bool.

(** One optional search argument.  [if first_name:] holds for a string
    that is neither [None] nor empty; the filter then compares the column
    with the pattern [f"%{first_name}%"], and a NULL column does not
    match. *)
Definition ilike_filter (query : option string) (column : option string)
  : bool :=
  match query with
  | None => true
  | Some q =>
      if truthy q
      then match column with
           | Some value => ilike value ("%" +:+ q +:+ "%")
           | None => false
           end
      else true
  end.

Definition search_contacts (db : list Contact) (user : User)
    (q_first_name q_last_name q_email : option string) : list Contact :=
  List.filter
    (fun c => (user_id c =? id user)
              && ilike_filter q_first_name (first_name c)
              && ilike_filter q_last_name (last_name c)
              && ilike_filter q_email (contact_email c)) db.

End Repository.

End ContactRepository.

(** ** [src/repository/users.py] *)

Module UserRepository.

(** [select(User).filter_by(id=user_id)] *)
Definition get_user_by_id (db : list User) (user_id : Z)
  : result (option User) :=
  Query.scalar_one_or_none (List.filter (fun u => id u =? user_id) db).

(** [select(User).filter_by(username=username)] *)
Definition get_user_by_username (db : list User) (name : string)
  : result (option User) :=
  Query.scalar_one_or_none
    (List.filter (fun u => bool_decide (username u = name)) db).

(** [select(User).filter_by(email=email)] *)
Definition get_user_by_email (db : list User) (mail : string)
  : result (option User) :=
  Query.scalar_one_or_none
    (List.filter (fun u => bool_decide (email u = mail)) db).

(** [user.confirmed = True] *)
Definition set_confirmed (u : User) : User :=
  mkUser (id u) (username u) (email u) (hashed_password u) (role u)
    true (avatar u).

(** The UPDATE flushed for a modified user: the row with its primary
    key is replaced. *)
Definition store (db : list User) (u : User) : list User :=
  List.map (fun r => if id r =? id u then u else r) db.

(** [confirmed_email]: the user is fetched and its attribute assigned
    without a test for [None]; assigning an attribute of [None] raises
    [AttributeError] before anything is committed. *)
Definition confirmed_email (db : list User) (mail : string)
  : list User * result unit :=
  match get_user_by_email db mail with
  | Raise e => (db, Raise e)
  | Ok None =>
      (db, Raise (AttributeError
                    "'NoneType' object has no attribute 'confirmed'"))
  | Ok (Some user) => (store db (set_confirmed user), Ok ())
  end.



(** [.values(hashed_password=hashed_password)] on one row. *)
Definition set_password (hashed : string) (u : User) : User :=
  mkUser (id u) (username u) (email u) hashed (role u) (confirmed u)
    (avatar u).

(** [Result.scalar_one()]: exactly one row, an exception otherwise. *)
Definition scalar_one {A} (rows : list A) : result A :=
  match rows with
  | [] => Raise NoResultFound
  | [r] => Ok r
  | _ :: _ :: _ => Raise MultipleResultsFound
  end.

(** [update(User).where(User.email == email)
       .values(hashed_password=hashed_password).returning(User)]: every
    row with the address is updated and returned; the commit precedes
    [scalar_one()], so the table is updated whatever [scalar_one()]
    makes of the returned rows. *)
Definition update_password (db : list User) (mail hashed : string)
  : list User * result User :=
  let matches := fun u : User => bool_decide (email u = mail) in
  let db' :=
    List.map (fun r => if matches r then set_password hashed r else r) db in
  let returning := List.map (set_password hashed) (List.filter matches db) in
  (db', scalar_one returning).

(** The body of a registration ([UserCreate]): the fields the repository
    and the unit test use.  The role is a member of [UserRole], for which
    both branches of the conditional in [create_user] yield the member
    itself. *)
Record UserCreate := mkUserCreate {
  body_username : string;
  body_email : string;
  body_password : string;
  body_role : UserRole
}.

Section Writes.

(** What the storage engine decides for the users table: whether a state
    of the table satisfies the constraints of its schema, and the primary
    key of a new row. *)
Variable integrity : list User -> bool.
Variable next_id : list User -> Z.

(** [create_user]: the password of the body is stored as it is given,
    under [hashed_password]; a new user is not confirmed.  The commit is
    not guarded: an [IntegrityError] reaches the caller, and the row is
    not stored. *)
Definition create_user (db : list User) (body : UserCreate)
    (avatar : option string) : list User * result User :=
  let role := body_role body in
  let user :=
    mkUser (next_id db) (body_username body) (body_email body)
      (body_password body) role false avatar in
  let db' := db ++ [user] in
  if integrity db' then (db', Ok user) else (db, Raise IntegrityError).

End Writes.

End UserRepository.

(** ** Signed tokens ([jose.jwt])

    A token string is modelled by what its compact serialisation
    denotes: either text that is not a JWS at all, or a header algorithm,
    a payload (a JSON object) and a signature.  The keyed signature
    function is left abstract. *)

Module Jwt.

Inductive token :=
| Opaque (text : string)
| Compact (alg : string) (payload : gmap string json) (signature : string).

Section Codec.

(** [sign alg key payload]: the signature of the signing input. *)
Variable sign : string -> string -> gmap string json -> string.

(** [jwt.encode(claims, key, algorithm=alg)] *)
Definition encode (claims : gmap string json) (key alg : string)
  : token :=
  Compact alg claims (sign alg key claims).

(** The [exp] claim, when present, must be a number and must not lie
    before the current time (no leeway). *)
Definition validate_exp (claims : gmap string json) (now : Z)
  : result unit :=
  match claims !! "exp" with
  | None => Ok ()
  | Some (JInt exp) =>
      if exp <? now then Raise (JWTError ExpiredSignatureError)
      else Ok ()
  | Some _ => Raise (JWTError JWTClaimsError)
  end.

(** The [sub] claim, when present, must be a string. *)
Definition validate_sub (claims : gmap string json) : result unit :=
  match claims !! "sub" with
  | None => Ok ()
  | Some (JStr _) => Ok ()
  | Some _ => Raise (JWTError JWTClaimsError)
  end.

(** [jwt.decode(token, key, algorithms=algorithms)] at time [now]. *)
Definition decode (t : token) (key : string) (algorithms : list string)
    (now : Z) : result (gmap string json) :=
  match t with
  | Opaque _ => Raise (JWTError JWSInvalid)
  | Compact alg payload signature =>
      if bool_decide (alg ∈ algorithms)
         && bool_decide (signature = sign alg key payload)
      then _ ← validate_exp payload now;
           _ ← validate_sub payload;
           Ok payload
      else Raise (JWTError JWSInvalid)
  end.

End Codec.

End Jwt.

(** ** The cache client *)

Module Redis.

(** Modelled from the spec: the client object of
    [src/cache/redis_client.py], which is not among the sources.  A
    key-value store whose entries carry the time at which they expire
    (section 3, cache entry), behind a backend that may be unavailable
    (section 4.3), which the client reports by raising [RedisError]. *)
Record client := mkClient {
  entries : gmap string (string * Z);
  get_unavailable : bool;
  set_unavailable : bool
}.

(** [await redis_client.get(key)] at time [now]. *)
Definition get (r : client) (key : string) (now : Z)
  : result (option string) :=
  if get_unavailable r then Raise RedisError
  else Ok (match entries r !! key with
           | Some (value, expires_at) =>
               if now <? expires_at then Some value else None
           | None => None
           end).

(** [await redis_client.set(key, value, ex=ex)] at time [now]. *)
Definition set (r : client) (key value : string) (ex now : Z)
  : result client :=
  if set_unavailable r then Raise RedisError
  else Ok (mkClient (<[key := (value, now + ex)]> (entries r))
             (get_unavailable r) (set_unavailable r)).

End Redis.

(** ** Configuration ([src/conf/config.py]) *)

Module Config.

Record Settings := mkSettings {
  JWT_SECRET : string;
  JWT_ALGORITHM : string;
  JWT_EXPIRATION_SECONDS : Z
}.

End Config.
Import Config.

(** ** The user service *)

Module UserService.

(** Modelled from the spec: [src/services/users.py] is not among the
    sources.  Lookup by username yields the user or not-found, which is
    a normal result (section 4.2); the service hands the query to the
    repository. *)
Definition get_user_by_username (db : list User) (name : string)
  : result (option User) :=
  UserRepository.get_user_by_username db name.

(** Modelled from the spec: the other operations of the service of
    [src/services/users.py] that the routes call, each of which hands its
    arguments to the repository (section 4.2).  The avatar a new user is
    given is decided by the service; it is an argument here. *)
Definition get_user_by_email (db : list User) (mail : string)
  : result (option User) :=
  UserRepository.get_user_by_email db mail.

Definition create_user (integrity : list User -> bool)
    (next_id : list User -> Z) (avatar : option string)
    (db : list User) (body : UserRepository.UserCreate)
  : list User * result User :=
  UserRepository.create_user integrity next_id db body avatar.

Definition confirmed_email (db : list User) (mail : string)
  : list User * result unit :=
  UserRepository.confirmed_email db mail.

Definition update_password (db : list User) (mail hashed : string)
  : list User * result User :=
  UserRepository.update_password db mail hashed.

End UserService.

(** ** [src/services/auth.py] *)

Module AuthService.

(** What [get_current_user] returns: the pydantic [User] rebuilt from
    the cache, or the ORM [User] read from the directory. *)
Inductive current_user (UserOut : Type) :=
| SchemaUser (u : UserOut)
| OrmUser (u : User).
Arguments SchemaUser {UserOut} u.
Arguments OrmUser {UserOut} u.

Section Service.

Variable sign : string -> string -> gmap string json -> string.
Variable config : Settings.

(** The pydantic [User] schema of [src/schemas.py], which is not among
    the sources, with [json.dumps(User.model_validate(user).model_dump())]
    and the [User] built from the keyword arguments [json.loads(text)]
    of a non-empty [text]. *)
Variable UserOut : Type.
Variable dumps_user : User -> string.
Variable loads_user : string -> result UserOut.

(** [json.loads] refuses the empty document. *)
Definition load_cached (text : string) : result UserOut :=
  if truthy text then loads_user text else Raise JSONDecodeError.

(** [if expires_delta:] holds for an integer other than [0]. *)
Definition lifetime (expires_delta : option Z) : Z :=
  match expires_delta with
  | Some d => if d =? 0 then JWT_EXPIRATION_SECONDS config else d
  | None => JWT_EXPIRATION_SECONDS config
  end.

Definition create_access_token (data : gmap string json)
    (expires_delta : option Z) (now : Z) : Jwt.token :=
  let expire := now + lifetime expires_delta in
  let to_encode := <["exp" := JInt expire]> data in
  Jwt.encode sign to_encode (JWT_SECRET config) (JWT_ALGORITHM config).

Definition credentials_exception : exn :=
  HTTPException 401 "Could not validate credentials".

(** The first [try] block: decode, index the payload with ["sub"],
    compare with [None].  Only [JWTError] is caught. *)
Definition subject (t : Jwt.token) (now : Z) : result json :=
  match
    (payload ← Jwt.decode sign t (JWT_SECRET config)
                 [JWT_ALGORITHM config] now;
     match payload !! "sub" with
     | None => Raise (KeyError "sub")
     | Some JNull => Raise credentials_exception
     | Some username => Ok username
     end)
  with
  | Raise (JWTError _) => Raise credentials_exception
  | r => r
  end.

(** The second [try] block: [Some] is the early [return] of the cached
    user, [None] falls through to the directory.  Only [RedisError]
    is caught. *)
Definition cached (redis : Redis.client) (cache_key : string) (now : Z)
  : result (option UserOut) :=
  match
    (cached_user ← Redis.get redis cache_key now;
     match cached_user with
     | None => Ok None
     | Some text =>
         if truthy text then u ← load_cached text; Ok (Some u)
         else Ok None
     end)
  with
  | Raise RedisError => Ok None
  | r => r
  end.

(** The third [try] block: the cache is refilled for 3600 seconds;
    only [RedisError] is caught. *)
Definition refill (redis : Redis.client) (cache_key : string)
    (user : User) (now : Z) : result Redis.client :=
  match Redis.set redis cache_key (dumps_user user) 3600 now with
  | Raise RedisError => Ok redis
  | r => r
  end.

Definition get_current_user (t : Jwt.token) (db : list User)
    (redis : Redis.client) (now : Z)
  : result (current_user UserOut) * Redis.client :=
  match subject t now with
  | Raise e => (Raise e, redis)
  | Ok username =>
      let cache_key := "user:" +:+ Py.str username in
      match cached redis cache_key now with
      | Raise e => (Raise e, redis)
      | Ok (Some u) => (Ok (SchemaUser u), redis)
      | Ok None =>
          match UserService.get_user_by_username db
                  (Py.str username) with
          | Raise e => (Raise e, redis)
          | Ok None => (Raise credentials_exception, redis)
          | Ok (Some user) =>
              match refill redis cache_key user now with
              | Raise e => (Raise e, redis)
              | Ok redis' => (Ok (OrmUser user), redis')
              end
          end
      end
  end.

(** [expire = datetime.utcnow() + timedelta(hours=1)] *)
Definition create_reset_token (mail : string) (now : Z) : Jwt.token :=
  let expire := now + 3600 in
  let payload : gmap string json :=
    <["sub" := JStr mail]> (<["exp" := JInt expire]> ∅) in
  Jwt.encode sign payload (JWT_SECRET config) (JWT_ALGORITHM config).

(** [payload.get("sub")]; nothing is caught here. *)
Definition decode_reset_token (t : Jwt.token) (now : Z)
  : result (option json) :=
  payload ← Jwt.decode sign t (JWT_SECRET config)
              [JWT_ALGORITHM config] now;
  Ok (payload !! "sub").

(** [expire = datetime.now(UTC) + timedelta(days=7)]; the claims [iat]
    and [exp] are added to a copy of [data]. *)
Definition create_email_token (data : gmap string json) (now : Z)
  : Jwt.token :=
  let expire := now + 7 * 86400 in
  let to_encode := <["exp" := JInt expire]> (<["iat" := JInt now]> data) in
  Jwt.encode sign to_encode (JWT_SECRET config) (JWT_ALGORITHM config).

(** [get_email_from_token]: the payload is indexed with ["sub"]; only
    [JWTError] is caught and turned into the 422 response. *)
Definition get_email_from_token (t : Jwt.token) (now : Z) : result json :=
  match
    (payload ← Jwt.decode sign t (JWT_SECRET config)
                 [JWT_ALGORITHM config] now;
     match payload !! "sub" with
     | None => Raise (KeyError "sub")
     | Some mail => Ok mail
     end)
  with
  | Raise (JWTError _) =>
      Raise (HTTPException 422
               "Неправильний токен для перевірки електронної пошти")
  | r => r
  end.

End Service.

End AuthService.

(** ** [src/services/mail.py] *)

Module Mail.

(** A call handed to [background_tasks.add_task]. *)
Inductive task :=
| SendEmail (email username host : string)
| SendResetPasswordEmail (email username host : string).

(** The message handed to [FastMail.send_message]: its subject and
    recipients, the host, username and token of its template body (the
    reset message carries the token inside its reset link), and the
    template. *)
Record MessageSchema := mkMessage {
  subject : string;
  recipients : list string;
  body_host : string;
  body_username : string;
  body_token : Jwt.token;
  template : string
}.

Section Messages.

Variable sign : string -> string -> gmap string json -> string.
Variable config : Settings.

(** [send_email], run at time [now]. *)
Definition send_email (email username host : string) (now : Z)
  : MessageSchema :=
  let token_verification :=
    AuthService.create_email_token sign config
      (<["sub" := JStr email]> ∅) now in
  mkMessage "Confirm your email" [email] host username token_verification
    "verify_email.html".

(** [send_reset_password_email], run at time [now]: the token of the
    reset link is made by [create_email_token]. *)
Definition send_reset_password_email (email username host : string)
    (now : Z) : MessageSchema :=
  let token :=
    AuthService.create_email_token sign config
      (<["sub" := JStr email]> ∅) now in
  mkMessage "Скидання пароля" [email] host username token
    "reset_password.html".

Definition run (t : task) (now : Z) : MessageSchema :=
  match t with
  | SendEmail email username host => send_email email username host now
  | SendResetPasswordEmail email username host =>
      send_reset_password_email email username host now
  end.

End Messages.

End Mail.

(** ** [src/api/auth.py] *)

Module AuthApi.

(** The response model of the login route. *)
Record Token := mkToken {
  access_token : Jwt.token;
  token_type : string
}.

(** [templates.TemplateResponse(name, {"request": request, "token": token})] *)
Record TemplateResponse := mkTemplateResponse {
  template_name : string;
  context_token : Jwt.token
}.

Section Routes.

Variable sign : string -> string -> gmap string json -> string.
Variable config : Settings.

(** [Hash().verify_password(plain_password, hashed_password)], the
    password hashing collaborator. *)
Variable verify_password : string -> string -> bool.

Definition login_user (db : list User)
    (form_username form_password : string) (now : Z) : result Token :=
  user ← UserService.get_user_by_username db form_username;
  match user with
  | None =>
      Raise (HTTPException 401 "Неправильний логін або пароль")
  | Some user =>
      if negb (verify_password form_password (hashed_password user))
      then Raise (HTTPException 401 "Неправильний логін або пароль")
      else if negb (confirmed user)
      then Raise (HTTPException 401 "Електронна адреса не підтверджена")
      else
        let access_token :=
          AuthService.create_access_token sign config
            (<["sub" := JStr (username user)]> ∅) None now in
        Ok (mkToken access_token "bearer")
  end.

(** [GET /auth/reset-password]: any exception of the decoding becomes
    the 400 response. *)
Definition reset_password_form (t : Jwt.token) (now : Z)
  : result TemplateResponse :=
  match AuthService.decode_reset_token sign config t now with
  | Raise _ => Raise (HTTPException 400 "Invalid or expired token")
  | Ok _ => Ok (mkTemplateResponse "reset_password_form.html" t)
  end.

(** [Hash().get_password_hash(password)], the users table's storage
    engine (constraints and generated keys), and the avatar the user
    service gives a new user. *)
Variable get_password_hash : string -> string.
Variable integrity : list User -> bool.
Variable next_id : list User -> Z.
Variable new_avatar : option string.

(** [POST /auth/register]: the new user and the task added to the
    background tasks. *)
Definition register_user (db : list User)
    (user_data : UserRepository.UserCreate) (base_url : string)
  : list User * result (User * list Mail.task) :=
  match UserService.get_user_by_email db
          (UserRepository.body_email user_data) with
  | Raise e => (db, Raise e)
  | Ok (Some _) =>
      (db, Raise (HTTPException 409 "Користувач з таким email вже існує"))
  | Ok None =>
      match UserService.get_user_by_username db
              (UserRepository.body_username user_data) with
      | Raise e => (db, Raise e)
      | Ok (Some _) =>
          (db, Raise (HTTPException 409
                        "Користувач з таким іменем вже існує"))
      | Ok None =>
          let user_data :=
            UserRepository.mkUserCreate
              (UserRepository.body_username user_data)
              (UserRepository.body_email user_data)
              (get_password_hash (UserRepository.body_password user_data))
              (UserRepository.body_role user_data) in
          match UserService.create_user integrity next_id new_avatar db
                  user_data with
          | (db', Raise e) => (db', Raise e)
          | (db', Ok new_user) =>
              (db', Ok (new_user,
                        [Mail.SendEmail (email new_user) (username new_user)
                           base_url]))
          end
      end
  end.

(** [GET /auth/confirmed_email/{token}]: the message of the response.
    The subject of a decoded token is a string. *)
Definition confirmed_email (db : list User) (t : Jwt.token) (now : Z)
  : list User * result string :=
  match AuthService.get_email_from_token sign config t now with
  | Raise e => (db, Raise e)
  | Ok mail =>
      match UserService.get_user_by_email db (Py.str mail) with
      | Raise e => (db, Raise e)
      | Ok None => (db, Raise (HTTPException 400 "Verification error"))
      | Ok (Some user) =>
          if confirmed user
          then (db, Ok "Ваша електронна пошта вже підтверджена")
          else
            match UserService.confirmed_email db (Py.str mail) with
            | (db', Raise e) => (db', Raise e)
            | (db', Ok _) => (db', Ok "Електронну пошту підтверджено")
            end
      end
  end.


(** [POST /auth/send-reset-password-token] *)
Definition send_reset_password_token (db : list User)
    (body_email base_url : string) : result (string * list Mail.task) :=
  user ← UserService.get_user_by_email db body_email;
  match user with
  | None =>
      Raise (HTTPException 404 "Користувача з таким email не знайдено")
  | Some user =>
      Ok ("Посилання для скидання пароля було надіслано на вашу електронну пошту",
          [Mail.SendResetPasswordEmail (email user) (username user)
             base_url])
  end.

(** [user_service.update_password(email, hashed_password)] for the value
    [decode_reset_token] returned: [None] compares the e-mail column with
    NULL, which no row satisfies. *)
Definition update_password_of (db : list User) (mail : option json)
    (hashed : string) : list User * result User :=
  match mail with
  | None => (db, Raise NoResultFound)
  | Some mail => UserService.update_password db (Py.str mail) hashed
  end.

(** [POST /auth/reset-password] *)
Definition reset_password (db : list User) (t : Jwt.token)
    (new_password : string) (now : Z) : list User * result string :=
  match AuthService.decode_reset_token sign config t now with
  | Raise _ => (db, Raise (HTTPException 400 "Invalid or expired token"))
  | Ok mail =>
      let hashed_password := get_password_hash new_password in
      match update_password_of db mail hashed_password with
      | (db', Raise e) => (db', Raise e)
      | (db', Ok _) => (db', Ok "Password updated successfully")
      end
  end.

End Routes.

End AuthApi.

(** ** The vocabulary of the specification *)

Module Spec.

(** The error taxonomy of the specification (section 7), and the
    exceptions of the program that realise each kind.  An exception no
    handler turns into a response of its own is an internal failure. *)
Inductive error_kind :=
| NotFound
| Conflict
| Unauthorized
| Forbidden
| InvalidOrExpiredToken
| Transient
| Internal.

Definition kind_of (e : exn) : error_kind :=
  match e with
  | HTTPException 401 _ => Unauthorized
  | HTTPException 403 _ => Forbidden
  | HTTPException 404 _ => NotFound
  | HTTPException 409 _ => Conflict
  | HTTPException 400 _ => InvalidOrExpiredToken
  | HTTPException 422 _ => InvalidOrExpiredToken
  | HTTPException _ _ => Internal
  | JWTError _ => InvalidOrExpiredToken
  | NoResultFound => NotFound
  | IntegrityError => Conflict
  | RedisError => Transient
  | KeyError _ | AttributeError _ | TypeError _ | JSONDecodeError
  | ValidationError | MultipleResultsFound => Internal
  end.

#[global] Instance error_kind_eq_dec : EqDecision error_kind.
Proof. solve_decision. Defined.

(** The month and day of a date: its projection onto a yearless
    calendar. *)
Definition month_day (d : date) : Z * Z := (month d, day d).

(** Section 4.5, in the words of the specification: the birthday's
    month/day falls within [[today, today + horizon]] on a yearless
    calendar, that is, it is the month/day of one of the days
    [today], [today + 1], ..., [today + horizon]. *)
Definition birthday_within (today : date) (horizon : nat) (b : date)
  : bool :=
  existsb
    (fun k => bool_decide (month_day (add_days today k) = month_day b))
    (seq 0 (S horizon)).

(** A partial-field replace: a field present in the payload overwrites
    the existing value, an absent one leaves it. *)
Definition replaced {A} (f : field A) (old : A) : A :=
  match f with
  | Unset => old
  | Given v => v
  end.

(** The primary key of the contacts table: no two rows share an id. *)
Definition primary_key (db : list Contact) : Prop :=
  NoDup (List.map contact_id db).

(** The primary key of the users table. *)
Definition users_primary_key (db : list User) : Prop :=
  NoDup (List.map id db).

End Spec.

(** ** Sample data

    Concrete users, contacts, tokens and collaborators on which the
    properties below are exercised. *)

Module Sample.

Definition alice : User :=
  mkUser 1 "alice" "alice@example.com" "hash:wonderland" USER true None.

Definition bob : User :=
  mkUser 2 "bob" "bob@example.com" "hash:builder" USER false None.

Definition users : list User := [alice; bob].

Definition john : Contact :=
  mkContact 7 2 (Some "John") (Some "Doe") (Some "john@example.com")
    (Some "1234567890") (Some (Date 1990 1 25)) (Some "Test contact").

Definition jane : Contact :=
  mkContact 8 1 (Some "Jane") (Some "Smith") (Some "jane@example.com")
    (Some "0987654321") (Some (Date 1990 1 2)) None.

Definition contacts : list Contact := [john; jane].

(** A payload that sets only [first_name]. *)
Definition rename : ContactData :=
  mkContactData (Given (Some "Janet")) Unset Unset Unset Unset Unset.

(** A creation payload that reuses Jane's e-mail address. *)
Definition duplicate : ContactData :=
  mkContactData (Given (Some "Janine")) (Given (Some "Smith"))
    (Given (Some "jane@example.com")) (Given (Some "5551234"))
    (Given (Some (Date 1985 6 1))) Unset.

(** A schema with a uniqueness constraint on the e-mail column. *)
Definition unique_email (db : list Contact) : bool :=
  bool_decide (NoDup (List.map contact_email db)).

Definition serial (db : list Contact) : Z := Z.of_nat (length db) + 1.

Definition sign (alg key : string) (payload : gmap string json) : string :=
  alg +:+ ":" +:+ key +:+ ":" +:+
  from_option Py.str "" (payload !! "sub") +:+ ":" +:+
  from_option Py.str "" (payload !! "exp").

Definition config : Settings := mkSettings "secret" "HS256" 3600.

Definition verify_password (plain hashed : string) : bool :=
  bool_decide (hashed = "hash:" +:+ plain).

(** A cached snapshot that keeps the username only. *)
Definition dumps_user (u : User) : string := username u.
Definition loads_user (text : string) : result string := Ok text.

Definition empty_cache : Redis.client := Redis.mkClient ∅ false false.
Definition dead_cache : Redis.client := Redis.mkClient ∅ true true.

(** A cache that holds Alice's snapshot until time 4600. *)
Definition warm_cache : Redis.client :=
  Redis.mkClient {["user:alice" := ("alice", 4600)]} false false.

(** The bearer token issued to Alice at time 1000, and its payload. *)
Definition alice_token : Jwt.token :=
  AuthService.create_access_token sign config
    (<["sub" := JStr "alice"]> ∅) None 1000.

Definition alice_claims : gmap string json :=
  <["exp" := JInt 4600]> (<["sub" := JStr "alice"]> ∅).

(** The hashing collaborator matching [verify_password]. *)
Definition get_password_hash (plain : string) : string := "hash:" +:+ plain.

(** A users schema with uniqueness constraints on username and e-mail. *)
Definition unique_users (db : list User) : bool :=
  bool_decide (NoDup (List.map username db))
  && bool_decide (NoDup (List.map email db)).

Definition user_serial (db : list User) : Z := Z.of_nat (length db) + 1.

(** An operator that matches when the pattern is the value between two
    percent signs. *)
Definition ilike_whole (value pattern : string) : bool :=
  bool_decide (pattern = "%" +:+ value +:+ "%").

(** A cache whose entry for Alice is not a JSON document, and a
    deserialiser that refuses every text. *)
Definition corrupt_cache : Redis.client :=
  Redis.mkClient {["user:alice" := ("{broken", 4600)]} false false.

Definition loads_nothing (text : string) : result string :=
  Raise JSONDecodeError.

(** A users schema that refuses a third row. *)
Definition two_users_at_most (db : list User) : bool :=
  (length db <=? 2)%nat.

Definition carol : UserRepository.UserCreate :=
  UserRepository.mkUserCreate "carol" "carol@example.com" "looking-glass"
    USER.

End Sample.

(** * Properties *)

(** ** Lists and queries *)

Section QueryFacts.

Context {A : Type}.

Lemma filter_none (p : A -> bool) (l : list A) :
  (forall x, In x l -> p x = false) -> List.filter p l = [].
Proof.
  induction l as [|a l IH]; intros Hp; simpl; [reflexivity|].
  rewrite (Hp a (or_introl eq_refl)).
  apply IH. intros x Hx. apply Hp. now right.
Qed.

Lemma scalar_one_or_none_empty (p : A -> bool) (l : list A) :
  (forall x, In x l -> p x = false) ->
  Query.scalar_one_or_none (List.filter p l) = Ok None.
Proof. intros Hp. now rewrite filter_none. Qed.

(** A query that yields one row found it in the table, where it
    satisfies the WHERE clause. *)
Lemma scalar_one_or_none_some (p : A -> bool) (l : list A) (x : A) :
  Query.scalar_one_or_none (List.filter p l) = Ok (Some x) ->
  In x l /\ p x = true.
Proof.
  intros H. apply filter_In.
  destruct (List.filter p l) as [|y [|z rest]]; simpl in H; try discriminate.
  injection H as ->. now left.
Qed.

Lemma key_injective {K : Type} (key : A -> K) (l : list A) (x y : A) :
  NoDup (List.map key l) -> In x l -> In y l -> key x = key y -> x = y.
Proof.
  induction l as [|a l IH]; simpl; intros Hnd Hx Hy Hk; [contradiction|].
  apply NoDup_cons in Hnd as [Hnotin Hnd'].
  destruct Hx as [->|Hx], Hy as [->|Hy]; auto.
  - exfalso. apply Hnotin. rewrite Hk. apply list_elem_of_In.
    now apply in_map.
  - exfalso. apply Hnotin. rewrite <- Hk. apply list_elem_of_In.
    now apply in_map.
Qed.

End QueryFacts.

(** ** The contact repository *)

Section ContactFacts.

Import ContactRepository.

Variable integrity : list Contact -> bool.
Variable next_id : list Contact -> Z.

(** The WHERE clause of [get_contact] rejects every row of the table
    when the only row with the requested id belongs to someone else. *)
Lemma get_contact_rejects (db : list Contact) (cid : Z) (user : User) :
  (forall c, In c db -> contact_id c = cid -> user_id c <> id user) ->
  get_contact db cid user = Ok None.
Proof.
  intros H. apply scalar_one_or_none_empty. intros c Hc.
  destruct (contact_id c =? cid) eqn:Hid; [|reflexivity].
  apply Z.eqb_eq in Hid. simpl. apply Z.eqb_neq. now apply H.
Qed.

(** The loop over the payload's items assigns each field that is set and
    touches nothing else. *)
Lemma setattr_items (data : ContactData) (c : Contact) :
  fold_left setattr (items data) c =
  mkContact (contact_id c) (user_id c)
    (Spec.replaced (d_first_name data) (first_name c))
    (Spec.replaced (d_last_name data) (last_name c))
    (Spec.replaced (d_email data) (contact_email c))
    (Spec.replaced (d_phone data) (phone c))
    (Spec.replaced (d_birthday data) (birthday c))
    (Spec.replaced (d_extra_info data) (extra_info c)).
Proof.
  destruct c, data as [[|?] [|?] [|?] [|?] [|?] [|?]]; reflexivity.
Qed.

End ContactFacts.

(** C1.  When the contact with the requested id is owned by user B, a
    lookup by another user A returns not-found, the same result as for a
    table in which no contact has that id. *)
Theorem get_contact_wrong_owner
    (db : list Contact) (cid : Z) (A B : User) (c : Contact) :
  Spec.primary_key db ->
  In c db -> contact_id c = cid -> user_id c = id B ->
  id A <> id B ->
  ContactRepository.get_contact db cid A = Ok None
  /\ forall db' : list Contact,
       (forall c', In c' db' -> contact_id c' <> cid) ->
       ContactRepository.get_contact db' cid A
       = ContactRepository.get_contact db cid A.
Proof.
  intros Hpk Hin Hid Hown Hne.
  assert (Hnone : ContactRepository.get_contact db cid A = Ok None).
  { apply get_contact_rejects. intros c' Hin' Hid'.
    assert (c' = c) as ->
      by (apply (key_injective contact_id db c' c Hpk Hin' Hin); congruence).
    congruence. }
  split; [exact Hnone|].
  intros db' Hmissing. rewrite Hnone.
  apply get_contact_rejects. intros c' Hin' Hid'.
  now destruct (Hmissing c' Hin').
Qed.

Lemma get_contact_wrong_owner_witness :
  Spec.primary_key Sample.contacts
  /\ In Sample.john Sample.contacts
  /\ user_id Sample.john = id Sample.bob
  /\ id Sample.alice <> id Sample.bob
  /\ ContactRepository.get_contact Sample.contacts 7 Sample.alice = Ok None.
Proof.
  assert (Hpk : Spec.primary_key Sample.contacts)
    by (unfold Spec.primary_key; apply (bool_decide_unpack _);
        vm_compute; exact I).
  assert (Hne : id Sample.alice <> id Sample.bob) by (simpl; lia).
  split; [exact Hpk|].
  split; [simpl; now left|].
  split; [reflexivity|].
  split; [exact Hne|].
  exact (proj1 (get_contact_wrong_owner Sample.contacts 7 Sample.alice
                  Sample.bob Sample.john Hpk (or_introl eq_refl)
                  eq_refl eq_refl Hne)).
Defined.

(** C7.  An update of an existing contact whose commit is accepted
    returns and stores the contact in which exactly the fields present in
    the payload are overwritten; the fields absent from the payload, the
    id and the owning [user_id] keep their prior values.  When the commit
    is refused the table is left as it was. *)
Theorem update_contact_partial
    (integrity : list Contact -> bool) (db : list Contact) (cid : Z)
    (data : ContactData) (user : User) (c : Contact) :
  ContactRepository.get_contact db cid user = Ok (Some c) ->
  let c' :=
    mkContact (contact_id c) (user_id c)
      (Spec.replaced (d_first_name data) (first_name c))
      (Spec.replaced (d_last_name data) (last_name c))
      (Spec.replaced (d_email data) (contact_email c))
      (Spec.replaced (d_phone data) (phone c))
      (Spec.replaced (d_birthday data) (birthday c))
      (Spec.replaced (d_extra_info data) (extra_info c)) in
  (integrity (ContactRepository.store db c') = true ->
   ContactRepository.update_contact integrity db cid data user
   = (ContactRepository.store db c', Ok (Some c')))
  /\ (integrity (ContactRepository.store db c') = false ->
      ContactRepository.update_contact integrity db cid data user
      = (db, Ok None)).
Proof.
  intros Hget c'. unfold ContactRepository.update_contact.
  rewrite Hget, setattr_items. fold c'.
  split; intros ->; reflexivity.
Qed.

Lemma update_contact_partial_witness :
  ContactRepository.get_contact Sample.contacts 8 Sample.alice
  = Ok (Some Sample.jane)
  /\ ContactRepository.update_contact Sample.unique_email Sample.contacts 8
       Sample.rename Sample.alice
     = ([Sample.john;
         mkContact 8 1 (Some "Janet") (Some "Smith")
           (Some "jane@example.com") (Some "0987654321")
           (Some (Date 1990 1 2)) None],
        Ok (Some (mkContact 8 1 (Some "Janet") (Some "Smith")
                    (Some "jane@example.com") (Some "0987654321")
                    (Some (Date 1990 1 2)) None))).
Proof.
  split; [reflexivity|].
  exact (proj1 (update_contact_partial Sample.unique_email Sample.contacts 8
                  Sample.rename Sample.alice Sample.jane eq_refl)
           eq_refl).
Defined.

(** An update that sets only [first_name] changes no other attribute. *)
Corollary update_first_name_only
    (integrity : list Contact -> bool) (db : list Contact) (cid : Z)
    (v : option string) (user : User) (c c' : Contact) (db' : list Contact) :
  ContactRepository.get_contact db cid user = Ok (Some c) ->
  ContactRepository.update_contact integrity db cid
    (mkContactData (Given v) Unset Unset Unset Unset Unset) user
  = (db', Ok (Some c')) ->
  c' = mkContact (contact_id c) (user_id c) v (last_name c)
         (contact_email c) (phone c) (birthday c) (extra_info c).
Proof.
  intros Hget. unfold ContactRepository.update_contact.
  rewrite Hget, setattr_items. simpl.
  destruct (integrity _); intros [= _ <-]; reflexivity.
Qed.

(** The claim of C9 as the specification words it fails: a creation that
    violates the uniqueness constraint on the e-mail column does not end
    in a conflict error, it returns [None]. *)
Lemma create_contact_no_conflict_error :
  Sample.unique_email
    (Sample.contacts
       ++ [ContactRepository.new_contact Sample.serial Sample.contacts
             Sample.duplicate Sample.alice]) = false
  /\ ~ exists e,
         snd (ContactRepository.create_contact Sample.unique_email
                Sample.serial Sample.contacts Sample.duplicate Sample.alice)
         = Raise e
         /\ Spec.kind_of e = Spec.Conflict.
Proof.
  split; [vm_compute; reflexivity|].
  intros [e [He _]]. vm_compute in He. discriminate He.
Qed.

(** C9 (amended).  A creation whose commit violates a storage constraint
    returns [None] and rolls back fully: the table is the one before the
    call, without the new row. *)
Theorem create_contact_rolls_back
    (integrity : list Contact -> bool) (next_id : list Contact -> Z)
    (db : list Contact) (data : ContactData) (user : User) :
  integrity (db ++ [ContactRepository.new_contact next_id db data user])
  = false ->
  ContactRepository.create_contact integrity next_id db data user
  = (db, Ok None).
Proof.
  intros H. unfold ContactRepository.create_contact. now rewrite H.
Qed.

Lemma create_contact_rolls_back_witness :
  Sample.unique_email
    (Sample.contacts
       ++ [ContactRepository.new_contact Sample.serial Sample.contacts
             Sample.duplicate Sample.alice]) = false
  /\ ContactRepository.create_contact Sample.unique_email Sample.serial
       Sample.contacts Sample.duplicate Sample.alice
     = (Sample.contacts, Ok None).
Proof.
  assert (H : Sample.unique_email
                (Sample.contacts
                   ++ [ContactRepository.new_contact Sample.serial
                         Sample.contacts Sample.duplicate Sample.alice])
              = false) by (vm_compute; reflexivity).
  split; [exact H|].
  exact (create_contact_rolls_back Sample.unique_email Sample.serial
           Sample.contacts Sample.duplicate Sample.alice H).
Defined.

(** A creation whose commit is accepted appends the new row, owned by the
    calling user. *)
Lemma create_contact_commits
    (integrity : list Contact -> bool) (next_id : list Contact -> Z)
    (db : list Contact) (data : ContactData) (user : User) :
  integrity (db ++ [ContactRepository.new_contact next_id db data user])
  = true ->
  exists c,
    ContactRepository.create_contact integrity next_id db data user
    = (db ++ [c], Ok (Some c))
    /\ user_id c = id user.
Proof.
  intros H. unfold ContactRepository.create_contact. rewrite H.
  eexists. split; reflexivity.
Qed.

(** ** Upcoming birthdays *)

Lemma days_in_month_bounds (y m : Z) : 28 <= days_in_month y m <= 31.
Proof.
  unfold days_in_month.
  destruct (m =? 2); [destruct (is_leap y); lia|].
  destruct (_ || _); lia.
Qed.

(** The day after a date of the calendar is a date of the calendar. *)
Lemma next_day_valid (d : date) :
  Calendar.valid d = true -> Calendar.valid (next_day d) = true.
Proof.
  unfold Calendar.valid, next_day. intros H.
  apply andb_prop in H as [H Hd4]. apply andb_prop in H as [H Hd3].
  apply andb_prop in H as [Hd1 Hd2].
  apply Z.leb_le in Hd1, Hd2, Hd3, Hd4.
  destruct (Z.ltb_spec (day d) (days_in_month (year d) (month d))); simpl.
  - repeat (apply andb_true_intro; split); apply Z.leb_le; lia.
  - destruct (Z.ltb_spec (month d) 12); simpl.
    + pose proof (days_in_month_bounds (year d) (month d + 1)).
      repeat (apply andb_true_intro; split); apply Z.leb_le; lia.
    + reflexivity.
Qed.

Lemma add_days_valid (n : nat) (d : date) :
  Calendar.valid d = true -> Calendar.valid (add_days d n) = true.
Proof.
  revert d. induction n as [|n IH]; intros d H; simpl; [exact H|].
  apply IH. now apply next_day_valid.
Qed.

(** When today and the day a week later lie in the same month, the two
    comparisons of the WHERE clause cover every day of that month. *)
Lemma birthday_soon_same_month (today later : date) (c : Contact) (b : date) :
  birthday c = Some b ->
  month later = month today ->
  day today <= day later ->
  month b = month today ->
  ContactRepository.birthday_soon today later c = true.
Proof.
  intros Hb Hm Hd Hmb. unfold ContactRepository.birthday_soon.
  rewrite Hb, Hm, Hmb, Z.eqb_refl. simpl.
  destruct (day today <=? day b) eqn:H1; [reflexivity|].
  apply Z.leb_gt in H1. simpl. apply Z.leb_le. lia.
Qed.

(** The year-boundary example of the specification: on 2024-12-28 a
    birthday on 2 January is selected, and it lies within the week. *)
Lemma birthday_soon_year_boundary :
  ContactRepository.get_contacts_birthday_soon Sample.contacts Sample.alice
    (Date 2024 12 28) = [Sample.jane]
  /\ Spec.birthday_within (Date 2024 12 28) 7 (Date 1990 1 2) = true.
Proof. split; vm_compute; reflexivity. Qed.

(** C6 (defect).  On 2024-01-10 the query returns a contact whose
    birthday is 25 January, although 25 January is none of the days from
    10 to 17 January: the month/day of the birthday does not fall within
    [[today, today + 7]], and the contact is included all the same. *)
Theorem birthday_soon_outside_week :
  ContactRepository.get_contacts_birthday_soon Sample.contacts Sample.bob
    (Date 2024 1 10) = [Sample.john]
  /\ birthday Sample.john = Some (Date 1990 1 25)
  /\ Spec.birthday_within (Date 2024 1 10) 7 (Date 1990 1 25) = false.
Proof. repeat split; vm_compute; reflexivity. Qed.

(** ** The user repository *)

Lemma filter_map_stable {A : Type} (p : A -> bool) (f : A -> A) (l : list A) :
  (forall x, In x l -> p (f x) = p x) ->
  List.filter p (List.map f l) = List.map f (List.filter p l).
Proof.
  induction l as [|a l IH]; intros H; simpl; [reflexivity|].
  rewrite (H a (or_introl eq_refl)).
  rewrite IH by (intros x Hx; apply H; now right).
  now destruct (p a).
Qed.

Lemma scalar_one_or_none_single {A : Type} (rows : list A) (x : A) :
  Query.scalar_one_or_none rows = Ok (Some x) -> rows = [x].
Proof.
  destruct rows as [|y [|z rest]]; simpl; intros H; try discriminate.
  now injection H as ->.
Qed.

(** After the flag of the user found by e-mail is stored, the same query
    finds the confirmed user. *)
Lemma get_user_by_email_store (db : list User) (mail : string) (u : User) :
  Spec.users_primary_key db ->
  UserRepository.get_user_by_email db mail = Ok (Some u) ->
  UserRepository.get_user_by_email
    (UserRepository.store db (UserRepository.set_confirmed u)) mail
  = Ok (Some (UserRepository.set_confirmed u)).
Proof.
  intros Hpk Hget. unfold UserRepository.get_user_by_email in *.
  pose proof (scalar_one_or_none_some _ _ _ Hget) as [Hin Hmail].
  apply scalar_one_or_none_single in Hget.
  unfold UserRepository.store. rewrite filter_map_stable.
  - rewrite Hget. simpl. now rewrite Z.eqb_refl.
  - intros r Hr. simpl. destruct (id r =? id u) eqn:Hid; [|reflexivity].
    apply Z.eqb_eq in Hid.
    assert (r = u) as -> by (apply (key_injective id db); assumption).
    simpl. now rewrite Hmail.
Qed.

(** The claim of C8 as the specification words it fails: for an address
    no user has, the failure is not a not-found error. *)
Lemma confirmed_email_absent_not_NotFound :
  UserRepository.get_user_by_email Sample.users "nobody@example.com"
  = Ok None
  /\ ~ exists e,
         snd (UserRepository.confirmed_email Sample.users
                "nobody@example.com") = Raise e
         /\ Spec.kind_of e = Spec.NotFound.
Proof.
  split; [reflexivity|].
  intros [e [He Hk]]. vm_compute in He. injection He as <-.
  discriminate Hk.
Qed.

(** C8 (amended).  For an e-mail address without a matching user,
    [confirmed_email] fails with the [AttributeError] of assigning an
    attribute of [None], an internal error, and changes nothing; for an
    address with a matching user it stores that user with [confirmed]
    set, so that the user found under the address afterwards is
    confirmed, its other columns being the same. *)
Theorem confirmed_email_effect (db : list User) (mail : string) :
  (UserRepository.get_user_by_email db mail = Ok None ->
   exists e,
     UserRepository.confirmed_email db mail = (db, Raise e)
     /\ e = AttributeError "'NoneType' object has no attribute 'confirmed'"
     /\ Spec.kind_of e = Spec.Internal)
  /\ (forall u,
        Spec.users_primary_key db ->
        UserRepository.get_user_by_email db mail = Ok (Some u) ->
        exists db',
          UserRepository.confirmed_email db mail = (db', Ok ())
          /\ UserRepository.get_user_by_email db' mail
             = Ok (Some (mkUser (id u) (username u) (email u)
                           (hashed_password u) (role u) true (avatar u)))).
Proof.
  split.
  - intros H. unfold UserRepository.confirmed_email. rewrite H.
    eexists. repeat split.
  - intros u Hpk H. unfold UserRepository.confirmed_email. rewrite H.
    eexists. split; [reflexivity|].
    now apply get_user_by_email_store.
Qed.

Lemma confirmed_email_effect_witness :
  (UserRepository.get_user_by_email Sample.users "nobody@example.com"
   = Ok None
   /\ fst (UserRepository.confirmed_email Sample.users "nobody@example.com")
      = Sample.users)
  /\ (Spec.users_primary_key Sample.users
      /\ UserRepository.get_user_by_email Sample.users "bob@example.com"
         = Ok (Some Sample.bob)
      /\ exists db',
           UserRepository.confirmed_email Sample.users "bob@example.com"
           = (db', Ok ())
           /\ UserRepository.get_user_by_email db' "bob@example.com"
              = Ok (Some (mkUser 2 "bob" "bob@example.com" "hash:builder"
                            USER true None))).
Proof.
  assert (Hpk : Spec.users_primary_key Sample.users)
    by (unfold Spec.users_primary_key; apply (bool_decide_unpack _);
        vm_compute; exact I).
  split.
  - split; [reflexivity|].
    destruct (proj1 (confirmed_email_effect Sample.users
                       "nobody@example.com") eq_refl) as [e [He _]].
    now rewrite He.
  - split; [exact Hpk|]. split; [reflexivity|].
    exact (proj2 (confirmed_email_effect Sample.users "bob@example.com")
             Sample.bob Hpk eq_refl).
Defined.

(** ** Tokens *)

Section TokenFacts.

Variable sign : string -> string -> gmap string json -> string.

(** A token decoded with the key and algorithm it was encoded with passes
    the signature check; what remains is the validation of its claims. *)
Lemma decode_encode (claims : gmap string json) (key alg : string) (now : Z) :
  Jwt.decode sign (Jwt.encode sign claims key alg) key [alg] now
  = (_ ← Jwt.validate_exp claims now; _ ← Jwt.validate_sub claims; Ok claims).
Proof.
  unfold Jwt.decode, Jwt.encode.
  rewrite (bool_decide_eq_true_2 (alg ∈ [alg])) by set_solver.
  now rewrite bool_decide_eq_true_2.
Qed.

(** Every failure of [jwt.decode] is a [JWTError]. *)
Lemma decode_raises_JWTError (t : Jwt.token) (key : string)
    (algorithms : list string) (now : Z) (e : exn) :
  Jwt.decode sign t key algorithms now = Raise e -> exists k, e = JWTError k.
Proof.
  unfold Jwt.decode, Jwt.validate_exp, Jwt.validate_sub.
  destruct t as [text|alg payload signature]; [intros [= <-]; eauto|].
  destruct (_ && _); [|intros [= <-]; eauto].
  destruct (payload !! "exp") as [[| |exp|]|];
    try (intros [= <-]; eauto; fail);
    [destruct (exp <? now); [intros [= <-]; eauto|]|];
    simpl; (destruct (payload !! "sub") as [[| | |]|]; simpl;
            intros [= <-] || intros [=]; eauto).
Qed.

End TokenFacts.

(** ** Bearer resolution and the reset token *)

Section AuthFacts.

Variable sign : string -> string -> gmap string json -> string.
Variable config : Settings.

(** Any token the decoder refuses is answered with the 401 response. *)
Lemma subject_refused (t : Jwt.token) (now : Z) (e : exn) :
  Jwt.decode sign t (JWT_SECRET config) [JWT_ALGORITHM config] now = Raise e ->
  AuthService.subject sign config t now
  = Raise AuthService.credentials_exception.
Proof.
  intros H. unfold AuthService.subject. rewrite H.
  destruct (decode_raises_JWTError _ _ _ _ _ _ H) as [k ->]. reflexivity.
Qed.

(** A token the decoder accepts and that carries a subject resolves to
    that subject. *)
Lemma subject_accepted (t : Jwt.token) (now : Z)
    (payload : gmap string json) (name : string) :
  Jwt.decode sign t (JWT_SECRET config) [JWT_ALGORITHM config] now
  = Ok payload ->
  payload !! "sub" = Some (JStr name) ->
  AuthService.subject sign config t now = Ok (JStr name).
Proof.
  intros H Hsub. unfold AuthService.subject. rewrite H. simpl.
  now rewrite Hsub.
Qed.

Lemma reset_token_claims (mail : string) (expire : Z) :
  let payload : gmap string json :=
    <["sub" := JStr mail]> (<["exp" := JInt expire]> ∅) in
  payload !! "exp" = Some (JInt expire)
  /\ payload !! "sub" = Some (JStr mail).
Proof.
  simpl. split.
  - rewrite lookup_insert_ne by discriminate. apply lookup_insert_eq.
  - apply lookup_insert_eq.
Qed.

(** The reset token decoded at time [now]: its subject up to and
    including the instant of expiry, an expired signature afterwards. *)
Lemma decode_reset_token_create (mail : string) (issued now : Z) :
  AuthService.decode_reset_token sign config
    (AuthService.create_reset_token sign config mail issued) now
  = if issued + 3600 <? now then Raise (JWTError ExpiredSignatureError)
    else Ok (Some (JStr mail)).
Proof.
  unfold AuthService.decode_reset_token, AuthService.create_reset_token.
  rewrite decode_encode.
  destruct (reset_token_claims mail (issued + 3600)) as [Hexp Hsub].
  unfold Jwt.validate_exp, Jwt.validate_sub. rewrite Hexp.
  destruct (issued + 3600 <? now); simpl; [reflexivity|].
  now rewrite Hsub.
Qed.

End AuthFacts.

(** C2.  The token issued for an e-mail address decodes to that address
    as long as its lifetime of one hour has not elapsed; once it has, the
    decoding fails (with the expired-signature error of the codec), which
    the reset-password route answers with "Invalid or expired token". *)
Theorem reset_token_round_trip
    (sign : string -> string -> gmap string json -> string)
    (config : Settings) (mail : string) (issued now : Z) :
  (now <= issued + 3600 ->
   AuthService.decode_reset_token sign config
     (AuthService.create_reset_token sign config mail issued) now
   = Ok (Some (JStr mail)))
  /\ (issued + 3600 < now ->
      AuthService.decode_reset_token sign config
        (AuthService.create_reset_token sign config mail issued) now
      = Raise (JWTError ExpiredSignatureError)
      /\ AuthApi.reset_password_form sign config
           (AuthService.create_reset_token sign config mail issued) now
         = Raise (HTTPException 400 "Invalid or expired token")
      /\ Spec.kind_of (HTTPException 400 "Invalid or expired token")
         = Spec.InvalidOrExpiredToken).
Proof.
  split; intros H.
  - rewrite decode_reset_token_create.
    destruct (Z.ltb_spec (issued + 3600) now); [lia|reflexivity].
  - unfold AuthApi.reset_password_form.
    rewrite decode_reset_token_create.
    destruct (Z.ltb_spec (issued + 3600) now); [|lia].
    repeat split.
Qed.

Lemma reset_token_round_trip_witness :
  (1000 <= 1000 + 3600
   /\ AuthService.decode_reset_token Sample.sign Sample.config
        (AuthService.create_reset_token Sample.sign Sample.config
           "bob@example.com" 1000) 1000
      = Ok (Some (JStr "bob@example.com")))
  /\ (1000 + 3600 < 4601
      /\ AuthApi.reset_password_form Sample.sign Sample.config
           (AuthService.create_reset_token Sample.sign Sample.config
              "bob@example.com" 1000) 4601
         = Raise (HTTPException 400 "Invalid or expired token")).
Proof.
  assert (H1 : 1000 <= 1000 + 3600) by lia.
  assert (H2 : 1000 + 3600 < 4601) by lia.
  split; (split; [assumption|]).
  - exact (proj1 (reset_token_round_trip Sample.sign Sample.config
                    "bob@example.com" 1000 1000) H1).
  - exact (proj1 (proj2 (proj2 (reset_token_round_trip Sample.sign
                                  Sample.config "bob@example.com" 1000 4601)
                           H2))).
Defined.

(** C3 (defect).  A token that is well signed and not expired but carries
    no subject claim passes the decoder; indexing its payload with "sub"
    then raises [KeyError], which the handler for [JWTError] does not
    catch: the bearer is not answered with the 401 response but with an
    internal error. *)
Theorem get_current_user_without_subject
    (sign : string -> string -> gmap string json -> string)
    (config : Settings) (UserOut : Type) (dumps_user : User -> string)
    (loads_user : string -> result UserOut)
    (db : list User) (redis : Redis.client) (now : Z) :
  let t :=
    Jwt.encode sign (<["exp" := JInt (now + 3600)]> ∅)
      (JWT_SECRET config) (JWT_ALGORITHM config) in
  Jwt.decode sign t (JWT_SECRET config) [JWT_ALGORITHM config] now
  = Ok (<["exp" := JInt (now + 3600)]> ∅)
  /\ AuthService.get_current_user sign config UserOut dumps_user loads_user
       t db redis now
     = (Raise (KeyError "sub"), redis)
  /\ Spec.kind_of (KeyError "sub") <> Spec.Unauthorized.
Proof.
  intros t.
  assert (Hdec : Jwt.decode sign t (JWT_SECRET config)
                   [JWT_ALGORITHM config] now
                 = Ok (<["exp" := JInt (now + 3600)]> ∅)).
  { unfold t. rewrite decode_encode.
    unfold Jwt.validate_exp, Jwt.validate_sub.
    rewrite lookup_insert_eq.
    destruct (Z.ltb_spec (now + 3600) now); [lia|]. simpl.
    rewrite lookup_insert_ne by discriminate.
    now rewrite lookup_empty. }
  split; [exact Hdec|]. split; [|discriminate].
  unfold AuthService.get_current_user, AuthService.subject.
  rewrite Hdec. simpl.
  rewrite lookup_insert_ne by discriminate.
  now rewrite lookup_empty.
Qed.

(** What holds of the first [try] block: a token the decoder refuses, for
    a bad signature, a malformed structure or an elapsed expiry, is
    answered with the 401 response and nothing else, whatever the cache
    and the directory hold. *)
Lemma get_current_user_refused
    (sign : string -> string -> gmap string json -> string)
    (config : Settings) (UserOut : Type) (dumps_user : User -> string)
    (loads_user : string -> result UserOut)
    (t : Jwt.token) (db : list User) (redis : Redis.client) (now : Z)
    (e : exn) :
  Jwt.decode sign t (JWT_SECRET config) [JWT_ALGORITHM config] now = Raise e ->
  AuthService.get_current_user sign config UserOut dumps_user loads_user
    t db redis now
  = (Raise (HTTPException 401 "Could not validate credentials"), redis).
Proof.
  intros H. unfold AuthService.get_current_user.
  now rewrite (subject_refused sign config t now e H).
Qed.

(** ** Login *)

(** C4.  A user whose [confirmed] flag is false is refused with a 401
    response even when the password verifies; the login succeeds exactly
    when the user exists, the password verifies and the user is
    confirmed. *)
Theorem login_requires_confirmed
    (sign : string -> string -> gmap string json -> string)
    (config : Settings) (verify_password : string -> string -> bool)
    (db : list User) (name password : string) (now : Z) :
  (forall u,
     UserRepository.get_user_by_username db name = Ok (Some u) ->
     verify_password password (hashed_password u) = true ->
     confirmed u = false ->
     exists detail,
       AuthApi.login_user sign config verify_password db name password now
       = Raise (HTTPException 401 detail)
       /\ Spec.kind_of (HTTPException 401 detail) = Spec.Unauthorized)
  /\ ((exists token,
         AuthApi.login_user sign config verify_password db name password now
         = Ok token)
      <-> exists u,
            UserRepository.get_user_by_username db name = Ok (Some u)
            /\ verify_password password (hashed_password u) = true
            /\ confirmed u = true).
Proof.
  unfold AuthApi.login_user, UserService.get_user_by_username.
  split.
  - intros u -> Hpw Hconf. simpl. rewrite Hpw, Hconf. simpl.
    eexists. split; reflexivity.
  - destruct (UserRepository.get_user_by_username db name) as [[u|]|e];
      simpl.
    + destruct (verify_password password (hashed_password u)) eqn:Hpw;
        destruct (confirmed u) eqn:Hconf; simpl; split;
        try (intros [token [=]]; fail);
        try (intros [u' [[= <-] [H1 H2]]]; congruence).
      * intros _. exists u. auto.
      * intros _. eexists. reflexivity.
    + split; [intros [token [=]] | intros [u [[=] _]]].
    + split; [intros [token [=]] | intros [u [[=] _]]].
Qed.

Lemma login_requires_confirmed_witness :
  UserRepository.get_user_by_username Sample.users "bob" = Ok (Some Sample.bob)
  /\ Sample.verify_password "builder" (hashed_password Sample.bob) = true
  /\ confirmed Sample.bob = false
  /\ exists detail,
       AuthApi.login_user Sample.sign Sample.config Sample.verify_password
         Sample.users "bob" "builder" 1000
       = Raise (HTTPException 401 detail)
       /\ Spec.kind_of (HTTPException 401 detail) = Spec.Unauthorized.
Proof.
  split; [reflexivity|]. split; [reflexivity|]. split; [reflexivity|].
  exact (proj1 (login_requires_confirmed Sample.sign Sample.config
                  Sample.verify_password Sample.users "bob" "builder" 1000)
           Sample.bob eq_refl eq_refl eq_refl).
Defined.

(** A confirmed user with the right password obtains a bearer token whose
    subject is the username. *)
Lemma login_alice :
  exists token,
    AuthApi.login_user Sample.sign Sample.config Sample.verify_password
      Sample.users "alice" "wonderland" 1000
    = Ok (AuthApi.mkToken token "bearer")
    /\ AuthService.subject Sample.sign Sample.config token 1000
       = Ok (JStr "alice").
Proof. eexists. split; vm_compute; reflexivity. Qed.

(** ** The session cache *)

Section CacheFacts.

Variable sign : string -> string -> gmap string json -> string.
Variable config : Settings.
Variable UserOut : Type.
Variable dumps_user : User -> string.
Variable loads_user : string -> result UserOut.

(** An unavailable backend is a miss. *)
Lemma cached_unavailable (redis : Redis.client) (key : string) (now : Z) :
  Redis.get_unavailable redis = true ->
  AuthService.cached UserOut loads_user redis key now = Ok None.
Proof.
  intros H. unfold AuthService.cached, Redis.get. now rewrite H.
Qed.

Lemma cached_miss (redis : Redis.client) (key : string) (now : Z) :
  Redis.get redis key now = Ok None ->
  AuthService.cached UserOut loads_user redis key now = Ok None.
Proof. intros H. unfold AuthService.cached. now rewrite H. Qed.

(** A live entry that deserialises is the early return. *)
Lemma cached_hit (redis : Redis.client) (key text : string) (now : Z)
    (v : UserOut) :
  Redis.get redis key now = Ok (Some text) ->
  AuthService.load_cached UserOut loads_user text = Ok v ->
  AuthService.cached UserOut loads_user redis key now = Ok (Some v).
Proof.
  intros Hget Hload. unfold AuthService.cached. rewrite Hget. simpl.
  destruct (truthy text) eqn:Ht.
  - now rewrite Hload.
  - unfold AuthService.load_cached in Hload. rewrite Ht in Hload.
    discriminate.
Qed.

(** The refill never raises: it yields the cache with the new entry, or
    the cache as it was when the backend is unavailable. *)
Lemma refill_total (redis : Redis.client) (key : string) (user : User)
    (now : Z) :
  AuthService.refill dumps_user redis key user now
  = Ok (if Redis.set_unavailable redis then redis
        else Redis.mkClient
               (<[key := (dumps_user user, now + 3600)]> (Redis.entries redis))
               (Redis.get_unavailable redis) (Redis.set_unavailable redis)).
Proof.
  unfold AuthService.refill, Redis.set.
  now destruct (Redis.set_unavailable redis).
Qed.

End CacheFacts.

(** C5.  For a valid bearer token whose subject is in the directory, a
    cache backend that fails on the lookup, or misses and then fails on
    the refill, does not fail the resolution: the directory's user record
    is returned, and a failed refill leaves the cache as it was. *)
Theorem get_current_user_cache_failure
    (sign : string -> string -> gmap string json -> string)
    (config : Settings) (UserOut : Type) (dumps_user : User -> string)
    (loads_user : string -> result UserOut)
    (t : Jwt.token) (payload : gmap string json) (name : string) (u : User)
    (db : list User) (redis : Redis.client) (now : Z) :
  Jwt.decode sign t (JWT_SECRET config) [JWT_ALGORITHM config] now
  = Ok payload ->
  payload !! "sub" = Some (JStr name) ->
  UserRepository.get_user_by_username db name = Ok (Some u) ->
  Redis.get_unavailable redis = true
  \/ (Redis.get redis ("user:" +:+ name) now = Ok None
      /\ Redis.set_unavailable redis = true) ->
  exists redis',
    AuthService.get_current_user sign config UserOut dumps_user loads_user
      t db redis now
    = (Ok (AuthService.OrmUser u), redis')
    /\ (Redis.set_unavailable redis = true -> redis' = redis).
Proof.
  intros Hdec Hsub Hu Hfail.
  unfold AuthService.get_current_user.
  rewrite (subject_accepted sign config t now payload name Hdec Hsub).
  simpl Py.str.
  assert (Hmiss : AuthService.cached UserOut loads_user redis
                    ("user:" +:+ name) now = Ok None).
  { destruct Hfail as [Hget|[Hget _]].
    - now apply cached_unavailable.
    - now apply cached_miss. }
  rewrite Hmiss. unfold UserService.get_user_by_username. rewrite Hu.
  rewrite refill_total. eexists. split; [reflexivity|].
  now intros ->.
Qed.

Lemma get_current_user_cache_failure_witness :
  Jwt.decode Sample.sign Sample.alice_token (JWT_SECRET Sample.config)
    [JWT_ALGORITHM Sample.config] 1500 = Ok Sample.alice_claims
  /\ Sample.alice_claims !! "sub" = Some (JStr "alice")
  /\ UserRepository.get_user_by_username Sample.users "alice"
     = Ok (Some Sample.alice)
  /\ Redis.get_unavailable Sample.dead_cache = true
  /\ exists redis',
       AuthService.get_current_user Sample.sign Sample.config string
         Sample.dumps_user Sample.loads_user Sample.alice_token
         Sample.users Sample.dead_cache 1500
       = (Ok (AuthService.OrmUser Sample.alice), redis')
       /\ (Redis.set_unavailable Sample.dead_cache = true ->
           redis' = Sample.dead_cache).
Proof.
  assert (Hdec : Jwt.decode Sample.sign Sample.alice_token
                   (JWT_SECRET Sample.config) [JWT_ALGORITHM Sample.config]
                   1500 = Ok Sample.alice_claims)
    by (vm_compute; reflexivity).
  assert (Hsub : Sample.alice_claims !! "sub" = Some (JStr "alice"))
    by (vm_compute; reflexivity).
  split; [exact Hdec|]. split; [exact Hsub|].
  split; [reflexivity|]. split; [reflexivity|].
  exact (get_current_user_cache_failure Sample.sign Sample.config string
           Sample.dumps_user Sample.loads_user Sample.alice_token
           Sample.alice_claims "alice" Sample.alice Sample.users
           Sample.dead_cache 1500 Hdec Hsub eq_refl (or_introl eq_refl)).
Defined.

(** C10.  For a valid bearer token whose subject has a cache entry that
    deserialises, the cached record is returned for as long as the entry
    lives, whatever the directory holds, so also when the subject is no
    longer in it; once the entry has expired a subject absent from the
    directory is answered with the 401 response. *)
Theorem get_current_user_cache_hit
    (sign : string -> string -> gmap string json -> string)
    (config : Settings) (UserOut : Type) (dumps_user : User -> string)
    (loads_user : string -> result UserOut)
    (t : Jwt.token) (payload : gmap string json) (name text : string)
    (expires_at : Z) (v : UserOut) (redis : Redis.client) (now : Z) :
  Jwt.decode sign t (JWT_SECRET config) [JWT_ALGORITHM config] now
  = Ok payload ->
  payload !! "sub" = Some (JStr name) ->
  Redis.get_unavailable redis = false ->
  Redis.entries redis !! ("user:" +:+ name) = Some (text, expires_at) ->
  AuthService.load_cached UserOut loads_user text = Ok v ->
  (now < expires_at ->
   forall db : list User,
     AuthService.get_current_user sign config UserOut dumps_user loads_user
       t db redis now
     = (Ok (AuthService.SchemaUser v), redis))
  /\ (expires_at <= now ->
      forall db : list User,
        UserRepository.get_user_by_username db name = Ok None ->
        AuthService.get_current_user sign config UserOut dumps_user
          loads_user t db redis now
        = (Raise (HTTPException 401 "Could not validate credentials"),
           redis)).
Proof.
  intros Hdec Hsub Hup Hentry Hload.
  unfold AuthService.get_current_user.
  rewrite (subject_accepted sign config t now payload name Hdec Hsub).
  simpl Py.str.
  split; intros Hnow db.
  - rewrite (cached_hit UserOut loads_user redis _ text now v);
      [reflexivity| |exact Hload].
    unfold Redis.get. rewrite Hup, Hentry.
    destruct (Z.ltb_spec now expires_at); [reflexivity|lia].
  - intros Habsent. rewrite cached_miss.
    + unfold UserService.get_user_by_username. now rewrite Habsent.
    + unfold Redis.get. rewrite Hup, Hentry.
      destruct (Z.ltb_spec now expires_at); [lia|reflexivity].
Qed.

Lemma get_current_user_cache_hit_witness :
  Jwt.decode Sample.sign Sample.alice_token (JWT_SECRET Sample.config)
    [JWT_ALGORITHM Sample.config] 1500 = Ok Sample.alice_claims
  /\ Sample.alice_claims !! "sub" = Some (JStr "alice")
  /\ Redis.get_unavailable Sample.warm_cache = false
  /\ Redis.entries Sample.warm_cache !! ("user:" +:+ "alice")
     = Some ("alice", 4600)
  /\ AuthService.load_cached string Sample.loads_user "alice" = Ok "alice"
  /\ 1500 < 4600
  /\ UserRepository.get_user_by_username [] "alice" = Ok None
  /\ AuthService.get_current_user Sample.sign Sample.config string
       Sample.dumps_user Sample.loads_user Sample.alice_token
       [] Sample.warm_cache 1500
     = (Ok (AuthService.SchemaUser "alice"), Sample.warm_cache).
Proof.
  assert (Hdec : Jwt.decode Sample.sign Sample.alice_token
                   (JWT_SECRET Sample.config) [JWT_ALGORITHM Sample.config]
                   1500 = Ok Sample.alice_claims)
    by (vm_compute; reflexivity).
  assert (Hsub : Sample.alice_claims !! "sub" = Some (JStr "alice"))
    by (vm_compute; reflexivity).
  assert (Hentry : Redis.entries Sample.warm_cache !! ("user:" +:+ "alice")
                   = Some ("alice", 4600))
    by (vm_compute; reflexivity).
  assert (Hnow : 1500 < 4600) by lia.
  split; [exact Hdec|]. split; [exact Hsub|]. split; [reflexivity|].
  split; [exact Hentry|]. split; [reflexivity|]. split; [exact Hnow|].
  split; [reflexivity|].
  exact (proj1 (get_current_user_cache_hit Sample.sign Sample.config string
                  Sample.dumps_user Sample.loads_user Sample.alice_token
                  Sample.alice_claims "alice" "alice" 4600 "alice"
                  Sample.warm_cache 1500 Hdec Hsub eq_refl Hentry eq_refl)
           Hnow []).
Defined.

(** The staleness window on the sample data.  Alice's token is resolved
    at time 1000 against an empty cache, which fills it; with Alice
    removed from the directory the token still resolves, from the cache,
    at time 4599, and is refused from time 4600 on, when the entry
    written at time 1000 has lived its 3600 seconds. *)
Lemma stale_entry_scenario :
  let resolve :=
    AuthService.get_current_user Sample.sign Sample.config string
      Sample.dumps_user Sample.loads_user Sample.alice_token in
  let redis1 := snd (resolve Sample.users Sample.empty_cache 1000) in
  fst (resolve Sample.users Sample.empty_cache 1000)
  = Ok (AuthService.OrmUser Sample.alice)
  /\ redis1 = Sample.warm_cache
  /\ fst (resolve [Sample.bob] redis1 4599)
     = Ok (AuthService.SchemaUser "alice")
  /\ fst (resolve [Sample.bob] redis1 4600)
     = Raise (HTTPException 401 "Could not validate credentials").
Proof. repeat split; vm_compute; reflexivity. Qed.

(** * Further properties of the repositories and routes *)

(** ** Reading contacts *)

Lemma In_firstn {A : Type} (n : nat) (l : list A) (x : A) :
  In x (firstn n l) -> In x l.
Proof.
  revert l. induction n as [|n IH]; intros [|a l]; simpl; try contradiction.
  intros [->|H]; [now left|right; now apply IH].
Qed.

Lemma In_skipn {A : Type} (n : nat) (l : list A) (x : A) :
  In x (skipn n l) -> In x l.
Proof.
  revert l. induction n as [|n IH]; intros [|a l]; simpl; try contradiction;
    auto.
Qed.

(** X1.  Every query of the contact repository is scoped: whatever the page,
    the search arguments or the day, a returned contact is a row of the
    table owned by the calling user. *)
Theorem contact_queries_scoped
    (ilike : string -> string -> bool) (db : list Contact) (user : User)
    (c : Contact) :
  (forall skip limit,
     In c (ContactRepository.get_contacts db user skip limit) ->
     In c db /\ user_id c = id user)
  /\ (forall q1 q2 q3,
        In c (ContactRepository.search_contacts ilike db user q1 q2 q3) ->
        In c db /\ user_id c = id user)
  /\ (forall today,
        In c (ContactRepository.get_contacts_birthday_soon db user today) ->
        In c db /\ user_id c = id user).
Proof.
  split; [|split].
  - intros skip limit H. apply In_firstn, In_skipn, filter_In in H.
    destruct H as [H1 H2]. split; [exact H1|now apply Z.eqb_eq].
  - intros q1 q2 q3 H. apply filter_In in H as [H1 H2].
    repeat (apply andb_prop in H2 as [H2 _]).
    split; [exact H1|now apply Z.eqb_eq].
  - intros today H. apply filter_In in H as [H1 H2].
    apply andb_prop in H2 as [H2 _].
    split; [exact H1|now apply Z.eqb_eq].
Qed.

Lemma contact_queries_scoped_witness :
  In Sample.jane (ContactRepository.get_contacts Sample.contacts
                    Sample.alice 0 10)
  /\ In Sample.jane Sample.contacts
  /\ user_id Sample.jane = id Sample.alice.
Proof.
  assert (H : In Sample.jane (ContactRepository.get_contacts Sample.contacts
                                Sample.alice 0 10))
    by (simpl; now left).
  split; [exact H|].
  exact (proj1 (contact_queries_scoped Sample.ilike_whole Sample.contacts
                  Sample.alice Sample.jane) 0%nat 10%nat H).
Defined.


(** ** Writing contacts *)

(** A query on a key column of a table with unique keys yields the one
    row that satisfies it. *)
Lemma filter_unique {A K : Type} (key : A -> K) (p : A -> bool)
    (l : list A) (x : A) :
  NoDup (List.map key l) -> In x l -> p x = true ->
  (forall y, In y l -> p y = true -> key y = key x) ->
  List.filter p l = [x].
Proof.
  induction l as [|a l IH]; simpl; intros Hnd Hin Hpx Hkey; [contradiction|].
  apply NoDup_cons in Hnd as [Hnotin Hnd].
  assert (Hmap : forall y, In y l -> key y <> key a).
  { intros y Hy Heq. apply Hnotin. rewrite <- Heq.
    apply list_elem_of_In. now apply in_map. }
  destruct Hin as [->|Hin].
  - rewrite Hpx. f_equal. apply filter_none. intros y Hy.
    destruct (p y) eqn:Hpy; [|reflexivity].
    destruct (Hmap y Hy). apply Hkey; auto.
  - destruct (p a) eqn:Hpa.
    + destruct (Hmap x Hin). symmetry. apply Hkey; auto.
    + apply IH; auto.
Qed.

(** The owner finds a contact of the table under its id. *)
Lemma get_contact_found (db : list Contact) (user : User) (c : Contact) :
  Spec.primary_key db -> In c db -> user_id c = id user ->
  ContactRepository.get_contact db (contact_id c) user = Ok (Some c).
Proof.
  intros Hpk Hin Hown. unfold ContactRepository.get_contact.
  rewrite (filter_unique contact_id _ db c Hpk Hin); [reflexivity| |].
  - rewrite Hown, !Z.eqb_refl. reflexivity.
  - intros y _ Hy. apply andb_prop in Hy as [Hy _]. now apply Z.eqb_eq.
Qed.

Lemma store_ids (db : list Contact) (c : Contact) :
  List.map contact_id (ContactRepository.store db c)
  = List.map contact_id db.
Proof.
  unfold ContactRepository.store. rewrite List.map_map.
  apply List.map_ext. intros r.
  destruct (contact_id r =? contact_id c) eqn:H; [|reflexivity].
  apply Z.eqb_eq in H. now rewrite H.
Qed.

Lemma store_In (db : list Contact) (c c' : Contact) :
  In c db -> contact_id c = contact_id c' ->
  In c' (ContactRepository.store db c').
Proof.
  intros Hin Hid. unfold ContactRepository.store.
  apply in_map_iff. exists c. split; [|exact Hin].
  now rewrite Hid, Z.eqb_refl.
Qed.

Lemma store_other (db : list Contact) (c' r : Contact) :
  In r db -> contact_id r <> contact_id c' ->
  In r (ContactRepository.store db c').
Proof.
  intros Hin Hne. unfold ContactRepository.store.
  apply in_map_iff. exists r. split; [|exact Hin].
  destruct (Z.eqb_spec (contact_id r) (contact_id c')); [contradiction|].
  reflexivity.
Qed.

(** X3.  Deleting removes the owner's contact and nothing else: the deleted
    contact is returned, its id is then unknown to every user, and the
    other rows of the table are kept. *)
Theorem delete_contact_removes
    (db : list Contact) (cid : Z) (user : User) (c : Contact) :
  ContactRepository.get_contact db cid user = Ok (Some c) ->
  exists db',
    ContactRepository.delete_contact db cid user = (db', Ok (Some c))
    /\ (forall user', ContactRepository.get_contact db' cid user' = Ok None)
    /\ (forall r, In r db' <-> In r db /\ contact_id r <> cid).
Proof.
  intros Hget. unfold ContactRepository.delete_contact. rewrite Hget.
  eexists. split; [reflexivity|].
  apply scalar_one_or_none_some in Hget as [_ Hc].
  apply andb_prop in Hc as [Hc _]. apply Z.eqb_eq in Hc.
  assert (Hrows : forall r, In r (ContactRepository.remove db c)
                            <-> In r db /\ contact_id r <> cid).
  { intros r. unfold ContactRepository.remove. rewrite filter_In, Hc.
    destruct (Z.eqb_spec (contact_id r) cid); simpl; intuition congruence. }
  split; [|exact Hrows].
  intros user'. apply get_contact_rejects. intros r Hr Hid.
  apply Hrows in Hr as [_ Hr]. contradiction.
Qed.

Lemma delete_contact_removes_witness :
  ContactRepository.get_contact Sample.contacts 8 Sample.alice
  = Ok (Some Sample.jane)
  /\ exists db',
       ContactRepository.delete_contact Sample.contacts 8 Sample.alice
       = (db', Ok (Some Sample.jane))
       /\ (forall user',
             ContactRepository.get_contact db' 8 user' = Ok None)
       /\ (forall r, In r db' <-> In r Sample.contacts /\ contact_id r <> 8).
Proof.
  split; [reflexivity|].
  exact (delete_contact_removes Sample.contacts 8 Sample.alice Sample.jane
           eq_refl).
Defined.

(** X4.  Mutations are scoped like reads: for a contact owned by user B, an
    update or a deletion requested by another user A returns [None] and
    leaves the table as it was. *)
Theorem contact_mutations_scoped
    (integrity : list Contact -> bool) (db : list Contact) (cid : Z)
    (data : ContactData) (A B : User) (c : Contact) :
  Spec.primary_key db ->
  In c db -> contact_id c = cid -> user_id c = id B ->
  id A <> id B ->
  ContactRepository.update_contact integrity db cid data A = (db, Ok None)
  /\ ContactRepository.delete_contact db cid A = (db, Ok None).
Proof.
  intros Hpk Hin Hid Hown Hne.
  assert (Hnone : ContactRepository.get_contact db cid A = Ok None).
  { apply get_contact_rejects. intros c' Hin' Hid'.
    assert (c' = c) as ->
      by (apply (key_injective contact_id db c' c Hpk Hin' Hin); congruence).
    congruence. }
  unfold ContactRepository.update_contact, ContactRepository.delete_contact.
  now rewrite Hnone.
Qed.

Lemma contact_mutations_scoped_witness :
  Spec.primary_key Sample.contacts
  /\ In Sample.john Sample.contacts
  /\ user_id Sample.john = id Sample.bob
  /\ id Sample.alice <> id Sample.bob
  /\ ContactRepository.update_contact Sample.unique_email Sample.contacts 7
       Sample.rename Sample.alice = (Sample.contacts, Ok None)
  /\ ContactRepository.delete_contact Sample.contacts 7 Sample.alice
     = (Sample.contacts, Ok None).
Proof.
  assert (Hpk : Spec.primary_key Sample.contacts)
    by (unfold Spec.primary_key; apply (bool_decide_unpack _);
        vm_compute; exact I).
  assert (Hne : id Sample.alice <> id Sample.bob) by (simpl; lia).
  split; [exact Hpk|]. split; [simpl; now left|].
  split; [reflexivity|]. split; [exact Hne|].
  exact (contact_mutations_scoped Sample.unique_email Sample.contacts 7
           Sample.rename Sample.alice Sample.bob Sample.john Hpk
           (or_introl eq_refl) eq_refl eq_refl Hne).
Defined.

(** X5.  A contact that was created can be read back: when the storage engine
    generates a fresh key and accepts the commit, the table keeps its
    rows and its primary key, and the owner finds the new contact under
    its id. *)
Theorem create_contact_then_get
    (integrity : list Contact -> bool) (next_id : list Contact -> Z)
    (db : list Contact) (data : ContactData) (user : User) :
  Spec.primary_key db ->
  (forall r, In r db -> contact_id r <> next_id db) ->
  integrity (db ++ [ContactRepository.new_contact next_id db data user])
  = true ->
  exists c db',
    ContactRepository.create_contact integrity next_id db data user
    = (db', Ok (Some c))
    /\ Spec.primary_key db'
    /\ (forall r, In r db -> In r db')
    /\ ContactRepository.get_contact db' (contact_id c) user = Ok (Some c).
Proof.
  intros Hpk Hfresh Hok. unfold ContactRepository.create_contact.
  rewrite Hok. eexists. eexists. split; [reflexivity|].
  assert (Hpk' : Spec.primary_key
                   (db ++ [ContactRepository.new_contact next_id db data
                             user])).
  { unfold Spec.primary_key. rewrite List.map_app. apply NoDup_app.
    split; [exact Hpk|]. split; [|apply NoDup_singleton].
    intros k Hk Hk'. apply list_elem_of_In in Hk.
    apply in_map_iff in Hk as [r [<- Hr]].
    apply list_elem_of_In in Hk'. simpl in Hk'.
    destruct Hk' as [Hk'|[]]. now destruct (Hfresh r Hr). }
  split; [exact Hpk'|]. split.
  - intros r Hr. apply in_or_app. now left.
  - apply get_contact_found; [exact Hpk'| |reflexivity].
    apply in_or_app. right. now left.
Qed.

Lemma create_contact_then_get_witness :
  Spec.primary_key [Sample.john]
  /\ (forall r, In r [Sample.john] ->
                contact_id r <> Sample.serial [Sample.john])
  /\ exists c db',
       ContactRepository.create_contact Sample.unique_email Sample.serial
         [Sample.john] Sample.duplicate Sample.alice
       = (db', Ok (Some c))
       /\ Spec.primary_key db'
       /\ (forall r, In r [Sample.john] -> In r db')
       /\ ContactRepository.get_contact db' (contact_id c) Sample.alice
          = Ok (Some c).
Proof.
  assert (Hpk : Spec.primary_key [Sample.john])
    by (unfold Spec.primary_key; apply (bool_decide_unpack _);
        vm_compute; exact I).
  assert (Hfresh : forall r, In r [Sample.john] ->
                             contact_id r <> Sample.serial [Sample.john])
    by (intros r [<-|[]]; vm_compute; discriminate).
  split; [exact Hpk|]. split; [exact Hfresh|].
  exact (create_contact_then_get Sample.unique_email Sample.serial
           [Sample.john] Sample.duplicate Sample.alice Hpk Hfresh eq_refl).
Defined.

(** X6.  An update that succeeded can be read back: the table keeps its
    primary key, its size and every other row, and the owner finds the
    updated contact under the same id. *)
Theorem update_contact_then_get
    (integrity : list Contact -> bool) (db db' : list Contact) (cid : Z)
    (data : ContactData) (user : User) (c' : Contact) :
  Spec.primary_key db ->
  ContactRepository.update_contact integrity db cid data user
  = (db', Ok (Some c')) ->
  Spec.primary_key db'
  /\ length db' = length db
  /\ (forall r, In r db -> contact_id r <> cid -> In r db')
  /\ ContactRepository.get_contact db' cid user = Ok (Some c').
Proof.
  intros Hpk. unfold ContactRepository.update_contact.
  destruct (ContactRepository.get_contact db cid user) as [[c|]|e] eqn:Hget;
    try (intros [=]; fail).
  rewrite setattr_items.
  destruct (integrity _); intros [= <- <-].
  apply scalar_one_or_none_some in Hget as [Hin Hc].
  apply andb_prop in Hc as [Hid Hown]. apply Z.eqb_eq in Hid, Hown.
  set (c' := mkContact _ _ _ _ _ _ _ _).
  assert (Hpk' : Spec.primary_key (ContactRepository.store db c'))
    by (unfold Spec.primary_key; now rewrite store_ids).
  split; [exact Hpk'|]. split; [apply List.length_map|]. split.
  - intros r Hr Hne. apply store_other; [exact Hr|]. simpl. congruence.
  - rewrite <- Hid. change (contact_id c) with (contact_id c').
    apply get_contact_found; [exact Hpk'| |exact Hown].
    now apply (store_In db c c').
Qed.

Lemma update_contact_then_get_witness :
  Spec.primary_key Sample.contacts
  /\ exists db' c',
       ContactRepository.update_contact Sample.unique_email Sample.contacts
         8 Sample.rename Sample.alice = (db', Ok (Some c'))
       /\ Spec.primary_key db'
       /\ ContactRepository.get_contact db' 8 Sample.alice = Ok (Some c').
Proof.
  assert (Hpk : Spec.primary_key Sample.contacts)
    by (unfold Spec.primary_key; apply (bool_decide_unpack _);
        vm_compute; exact I).
  split; [exact Hpk|].
  eexists. eexists. split; [reflexivity|].
  pose proof (update_contact_then_get Sample.unique_email Sample.contacts _
                8 Sample.rename Sample.alice _ Hpk eq_refl) as [H1 [_ [_ H2]]].
  split; [exact H1|exact H2].
Defined.

(** ** Searching contacts *)

Lemma filter_filter {A : Type} (p q : A -> bool) (l : list A) :
  List.filter p (List.filter q l) = List.filter (fun x => q x && p x) l.
Proof.
  induction l as [|a l IH]; simpl; [reflexivity|].
  destruct (q a); simpl; [destruct (p a)|]; now rewrite IH.
Qed.

(** X7.  Search arguments that are absent or empty are not applied: a search
    without effective arguments returns all contacts of the user, the
    unpaginated result of [get_contacts]. *)
Theorem search_contacts_no_filter
    (ilike : string -> string -> bool) (db : list Contact) (user : User)
    (q1 q2 q3 : option string) :
  q1 = None \/ q1 = Some "" ->
  q2 = None \/ q2 = Some "" ->
  q3 = None \/ q3 = Some "" ->
  ContactRepository.search_contacts ilike db user q1 q2 q3
  = ContactRepository.get_contacts db user 0 (length db).
Proof.
  intros H1 H2 H3.
  unfold ContactRepository.search_contacts, ContactRepository.get_contacts.
  simpl skipn. rewrite firstn_all2.
  - apply List.filter_ext. intros c.
    destruct H1 as [-> | ->], H2 as [-> | ->], H3 as [-> | ->]; simpl;
      now rewrite !andb_true_r.
  - apply List.filter_length_le.
Qed.

Lemma search_contacts_no_filter_witness :
  ContactRepository.search_contacts Sample.ilike_whole Sample.contacts
    Sample.alice None (Some "") None
  = ContactRepository.get_contacts Sample.contacts Sample.alice 0
      (length Sample.contacts).
Proof.
  exact (search_contacts_no_filter Sample.ilike_whole Sample.contacts
           Sample.alice None (Some "") None
           (or_introl eq_refl) (or_intror eq_refl) (or_introl eq_refl)).
Defined.

(** X8.  The search arguments are combined with AND: searching by all of them
    at once gives the contacts that searching by first name, then among
    those by last name, then among those by e-mail gives. *)
Theorem search_contacts_conjunction
    (ilike : string -> string -> bool) (db : list Contact) (user : User)
    (q1 q2 q3 : option string) :
  ContactRepository.search_contacts ilike db user q1 q2 q3
  = ContactRepository.search_contacts ilike
      (ContactRepository.search_contacts ilike
         (ContactRepository.search_contacts ilike db user q1 None None)
         user None q2 None)
      user None None q3.
Proof.
  unfold ContactRepository.search_contacts.
  rewrite !filter_filter. apply List.filter_ext. intros c. simpl.
  destruct (user_id c =? id user); simpl; [|reflexivity].
  rewrite !andb_true_r. now rewrite andb_assoc.
Qed.

(** ** The week of upcoming birthdays *)

Lemma date_eta (d : date) : Date (year d) (month d) (day d) = d.
Proof. now destruct d. Qed.

Lemma valid_bounds (d : date) :
  Calendar.valid d = true ->
  1 <= month d <= 12 /\ 1 <= day d <= days_in_month (year d) (month d).
Proof.
  unfold Calendar.valid. intros H.
  apply andb_prop in H as [H H4]. apply andb_prop in H as [H H3].
  apply andb_prop in H as [H1 H2].
  apply Z.leb_le in H1, H2, H3, H4. lia.
Qed.

(** Within the month: adding [k] days to a date that has [k] days left
    in its month moves the day only. *)
Lemma add_days_same_month (k : nat) (d : date) :
  Calendar.valid d = true ->
  day d + Z.of_nat k <= days_in_month (year d) (month d) ->
  add_days d k = Date (year d) (month d) (day d + Z.of_nat k).
Proof.
  revert d. induction k as [|k IH]; intros d Hv Hk.
  - simpl. rewrite Z.add_0_r. symmetry. apply date_eta.
  - simpl add_days.
    assert (Hn : next_day d = Date (year d) (month d) (day d + 1)).
    { unfold next_day.
      destruct (Z.ltb_spec (day d) (days_in_month (year d) (month d)));
        [reflexivity|lia]. }
    rewrite IH.
    + rewrite Hn. simpl. f_equal. lia.
    + now apply next_day_valid.
    + rewrite Hn. simpl. lia.
Qed.

(** Across the end of the month: adding up to 28 days to a date that
    has fewer days left in its month lands in the following month. *)
Lemma add_days_next_month (k : nat) (d : date) :
  Calendar.valid d = true ->
  (k <= 28)%nat ->
  days_in_month (year d) (month d) < day d + Z.of_nat k ->
  add_days d k
  = rollover d (day d + Z.of_nat k - days_in_month (year d) (month d)).
Proof.
  revert d. induction k as [|k IH]; intros d Hv Hk Hover.
  - apply valid_bounds in Hv. lia.
  - simpl add_days. pose proof (valid_bounds d Hv) as [Hm Hd].
    destruct (Z.ltb_spec (day d) (days_in_month (year d) (month d)))
      as [Hlt|Hge].
    + assert (Hn : next_day d = Date (year d) (month d) (day d + 1)).
      { unfold next_day.
        destruct (Z.ltb_spec (day d) (days_in_month (year d) (month d)));
          [reflexivity|lia]. }
      rewrite IH.
      * rewrite Hn. unfold rollover. simpl.
        destruct (month d <? 12); f_equal; lia.
      * now apply next_day_valid.
      * lia.
      * rewrite Hn. simpl. lia.
    + assert (Hn : next_day d = rollover d 1).
      { unfold next_day, rollover.
        destruct (Z.ltb_spec (day d) (days_in_month (year d) (month d)));
          [lia|reflexivity]. }
      pose proof (next_day_valid d Hv) as Hv'.
      rewrite add_days_same_month; [|exact Hv'|].
      * rewrite Hn. unfold rollover.
        destruct (month d <? 12); simpl; f_equal; lia.
      * rewrite Hn. unfold rollover.
        destruct (month d <? 12); simpl.
        -- pose proof (days_in_month_bounds (year d) (month d + 1)). lia.
        -- pose proof (days_in_month_bounds (year d + 1) 1). lia.
Qed.

(** The days [today], ..., [today + 7] lie in the month of [today] from
    its day on, or in the month of [today + 7] up to its day. *)
Lemma week_days (today : date) (k : nat) :
  Calendar.valid today = true -> (k <= 7)%nat ->
  let d := add_days today k in
  let later := add_days today 7 in
  (month d = month today /\ day today <= day d)
  \/ (month d = month later /\ day d <= day later).
Proof.
  intros Hv Hk d later. subst d later.
  destruct (Z.le_gt_cases (day today + Z.of_nat k)
              (days_in_month (year today) (month today))) as [Hin|Hout].
  - left. rewrite add_days_same_month by assumption.
    cbn [month day]. lia.
  - right. rewrite (add_days_next_month k) by (assumption || lia).
    rewrite (add_days_next_month 7) by (assumption || lia).
    unfold rollover. destruct (month today <? 12); cbn [month day]; lia.
Qed.

(** The window of the specification, day by day. *)
Lemma birthday_within_iff (today b : date) (horizon : nat) :
  Spec.birthday_within today horizon b = true
  <-> exists k, (k <= horizon)%nat
                /\ month (add_days today k) = month b
                /\ day (add_days today k) = day b.
Proof.
  unfold Spec.birthday_within, Spec.month_day. rewrite existsb_exists.
  split.
  - intros [k [Hk Heq]]. apply in_seq in Hk.
    apply bool_decide_eq_true in Heq. injection Heq as H1 H2.
    exists k. repeat split; (lia || assumption).
  - intros [k [Hk [H1 H2]]]. exists k. split.
    + apply in_seq. lia.
    + apply bool_decide_eq_true. now rewrite H1, H2.
Qed.

(** X9.  The query misses no birthday of the coming week: a contact of the
    user whose birthday has the month and day of one of the days
    [today], ..., [today + 7] is returned. *)
Theorem birthday_soon_complete
    (db : list Contact) (user : User) (today : date) (c : Contact)
    (b : date) :
  Calendar.valid today = true ->
  In c db -> user_id c = id user -> birthday c = Some b ->
  Spec.birthday_within today 7 b = true ->
  In c (ContactRepository.get_contacts_birthday_soon db user today).
Proof.
  intros Hv Hin Hown Hb Hw.
  apply birthday_within_iff in Hw as [k [Hk [Hm Hd]]].
  unfold ContactRepository.get_contacts_birthday_soon.
  apply filter_In. split; [exact Hin|].
  rewrite Hown, Z.eqb_refl. cbn [andb].
  unfold ContactRepository.birthday_soon. rewrite Hb.
  rewrite <- Hm, <- Hd.
  destruct (week_days today k Hv Hk) as [[H1 H2]|[H1 H2]];
    apply orb_true_iff; [left|right];
    rewrite H1, Z.eqb_refl; cbn [andb]; now apply Z.leb_le.
Qed.

Lemma birthday_soon_complete_witness :
  Calendar.valid (Date 2024 12 28) = true
  /\ Spec.birthday_within (Date 2024 12 28) 7 (Date 1990 1 2) = true
  /\ In Sample.jane
       (ContactRepository.get_contacts_birthday_soon Sample.contacts
          Sample.alice (Date 2024 12 28)).
Proof.
  assert (Hv : Calendar.valid (Date 2024 12 28) = true)
    by (vm_compute; reflexivity).
  assert (Hw : Spec.birthday_within (Date 2024 12 28) 7 (Date 1990 1 2)
               = true) by (vm_compute; reflexivity).
  split; [exact Hv|]. split; [exact Hw|].
  exact (birthday_soon_complete Sample.contacts Sample.alice
           (Date 2024 12 28) Sample.jane (Date 1990 1 2) Hv
           (or_intror (or_introl eq_refl)) eq_refl eq_refl Hw).
Defined.

(** X10.  When today and the day a week later lie in different months, the
    WHERE clause selects exactly the birthdays of the coming week, for a
    birthday whose day exists in its month this year. *)
Theorem birthday_soon_exact_across_months
    (today : date) (c : Contact) (b : date) :
  Calendar.valid today = true ->
  month (add_days today 7) <> month today ->
  birthday c = Some b ->
  1 <= day b <= days_in_month (year today) (month b) ->
  ContactRepository.birthday_soon today (add_days today 7) c
  = Spec.birthday_within today 7 b.
Proof.
  intros Hv Hcross Hb Hday.
  pose proof (valid_bounds today Hv) as [Hm Hd].
  assert (Hover : days_in_month (year today) (month today) < day today + 7).
  { destruct (Z.le_gt_cases (day today + 7)
                (days_in_month (year today) (month today))) as [H|H];
      [|lia].
    exfalso. apply Hcross.
    rewrite (add_days_same_month 7 today Hv H). reflexivity. }
  assert (Hlater : add_days today 7
                   = rollover today
                       (day today + 7
                        - days_in_month (year today) (month today)))
    by (apply (add_days_next_month 7); (assumption || lia)).
  apply eq_true_iff_eq. split.
  - intros Hsoon. apply birthday_within_iff.
    unfold ContactRepository.birthday_soon in Hsoon. rewrite Hb in Hsoon.
    apply orb_true_iff in Hsoon as [H|H];
      apply andb_prop in H as [H1 H2];
      apply Z.eqb_eq in H1; apply Z.leb_le in H2.
    + exists (Z.to_nat (day b - day today)).
      rewrite H1 in Hday.
      split; [lia|].
      rewrite add_days_same_month by (assumption || lia).
      cbn [month day]. split; [congruence|lia].
    + rewrite Hlater in H1, H2.
      exists (Z.to_nat (days_in_month (year today) (month today)
                        - day today + day b)).
      assert (Hr : day (rollover today
                          (day today + 7
                           - days_in_month (year today) (month today)))
                   = day today + 7
                     - days_in_month (year today) (month today))
        by (unfold rollover; now destruct (month today <? 12)).
      rewrite Hr in H2.
      split; [lia|].
      rewrite add_days_next_month by (assumption || lia).
      revert H1. unfold rollover.
      destruct (month today <? 12); cbn [month day]; intros H1; split;
        (congruence || lia).
  - intros Hw. apply birthday_within_iff in Hw as [k [Hk [Hkm Hkd]]].
    unfold ContactRepository.birthday_soon. rewrite Hb.
    rewrite <- Hkm, <- Hkd.
    destruct (week_days today k Hv Hk) as [[H1 H2]|[H1 H2]];
      apply orb_true_iff; [left|right];
      rewrite H1, Z.eqb_refl; cbn [andb]; now apply Z.leb_le.
Qed.

Lemma birthday_soon_exact_across_months_witness :
  Calendar.valid (Date 2024 12 28) = true
  /\ month (add_days (Date 2024 12 28) 7) <> month (Date 2024 12 28)
  /\ 1 <= day (Date 1990 1 2)
        <= days_in_month (year (Date 2024 12 28)) (month (Date 1990 1 2))
  /\ ContactRepository.birthday_soon (Date 2024 12 28)
       (add_days (Date 2024 12 28) 7) Sample.jane
     = Spec.birthday_within (Date 2024 12 28) 7 (Date 1990 1 2).
Proof.
  assert (Hv : Calendar.valid (Date 2024 12 28) = true)
    by (vm_compute; reflexivity).
  assert (Hc : month (add_days (Date 2024 12 28) 7)
               <> month (Date 2024 12 28))
    by (vm_compute; discriminate).
  assert (Hd : 1 <= day (Date 1990 1 2)
               <= days_in_month (year (Date 2024 12 28))
                    (month (Date 1990 1 2)))
    by (vm_compute; split; discriminate).
  split; [exact Hv|]. split; [exact Hc|]. split; [exact Hd|].
  exact (birthday_soon_exact_across_months (Date 2024 12 28) Sample.jane
           (Date 1990 1 2) Hv Hc eq_refl Hd).
Defined.

(** ** Looking users up *)

Lemma scalar_one_or_none_filter_none {A : Type} (p : A -> bool)
    (l : list A) :
  Query.scalar_one_or_none (List.filter p l) = Ok None ->
  forall x, In x l -> p x = false.
Proof.
  intros H x Hx. destruct (p x) eqn:Hp; [|reflexivity].
  assert (Hin : In x (List.filter p l)) by (apply filter_In; auto).
  destruct (List.filter p l) as [|y [|z rest]]; simpl in *;
    [contradiction|discriminate|discriminate].
Qed.

(** X12.  On a users table whose id, username and e-mail columns are unique,
    every stored user is found under each of its three keys, and a
    username or address no user has yields [None]: no lookup raises. *)
Theorem user_lookups_unique (db : list User) :
  Spec.users_primary_key db ->
  NoDup (List.map username db) ->
  NoDup (List.map email db) ->
  (forall u, In u db ->
     UserRepository.get_user_by_id db (id u) = Ok (Some u)
     /\ UserRepository.get_user_by_username db (username u) = Ok (Some u)
     /\ UserRepository.get_user_by_email db (email u) = Ok (Some u))
  /\ (forall name, (forall u, In u db -> username u <> name) ->
        UserRepository.get_user_by_username db name = Ok None)
  /\ (forall mail, (forall u, In u db -> email u <> mail) ->
        UserRepository.get_user_by_email db mail = Ok None).
Proof.
  intros Hid Hname Hmail. split; [|split].
  - intros u Hu.
    unfold UserRepository.get_user_by_id,
      UserRepository.get_user_by_username, UserRepository.get_user_by_email.
    rewrite (filter_unique id _ db u Hid Hu);
      [|apply Z.eqb_refl|intros y _ Hy; now apply Z.eqb_eq].
    rewrite (filter_unique username _ db u Hname Hu);
      [|now apply bool_decide_eq_true
       |intros y _ Hy; now apply bool_decide_eq_true in Hy].
    rewrite (filter_unique email _ db u Hmail Hu);
      [|now apply bool_decide_eq_true
       |intros y _ Hy; now apply bool_decide_eq_true in Hy].
    repeat split.
  - intros name H. apply scalar_one_or_none_empty. intros u Hu.
    apply bool_decide_eq_false. now apply H.
  - intros mail H. apply scalar_one_or_none_empty. intros u Hu.
    apply bool_decide_eq_false. now apply H.
Qed.

Lemma user_lookups_unique_witness :
  Spec.users_primary_key Sample.users
  /\ NoDup (List.map username Sample.users)
  /\ NoDup (List.map email Sample.users)
  /\ In Sample.bob Sample.users
  /\ UserRepository.get_user_by_id Sample.users 2 = Ok (Some Sample.bob)
  /\ UserRepository.get_user_by_username Sample.users "bob"
     = Ok (Some Sample.bob)
  /\ UserRepository.get_user_by_email Sample.users "bob@example.com"
     = Ok (Some Sample.bob).
Proof.
  assert (H1 : Spec.users_primary_key Sample.users)
    by (unfold Spec.users_primary_key; apply (bool_decide_unpack _);
        vm_compute; exact I).
  assert (H2 : NoDup (List.map username Sample.users))
    by (apply (bool_decide_unpack _); vm_compute; exact I).
  assert (H3 : NoDup (List.map email Sample.users))
    by (apply (bool_decide_unpack _); vm_compute; exact I).
  assert (H4 : In Sample.bob Sample.users) by (simpl; auto).
  split; [exact H1|]. split; [exact H2|]. split; [exact H3|].
  split; [exact H4|].
  exact (proj1 (user_lookups_unique Sample.users H1 H2 H3) Sample.bob H4).
Defined.

(** ** Updating users *)

(** A stored change that keeps the id and the address of the user found
    under an address is found under that address. *)
Lemma get_user_by_email_stored (db : list User) (mail : string)
    (u u' : User) :
  Spec.users_primary_key db ->
  UserRepository.get_user_by_email db mail = Ok (Some u) ->
  id u' = id u -> email u' = email u ->
  UserRepository.get_user_by_email (UserRepository.store db u') mail
  = Ok (Some u').
Proof.
  intros Hpk Hget Hid Hmail. unfold UserRepository.get_user_by_email in *.
  pose proof (scalar_one_or_none_some _ _ _ Hget) as [Hin Hu].
  apply scalar_one_or_none_single in Hget.
  unfold UserRepository.store. rewrite filter_map_stable.
  - rewrite Hget. simpl. now rewrite Hid, Z.eqb_refl.
  - intros r Hr. simpl. rewrite Hid.
    destruct (id r =? id u) eqn:Hr_id; [|reflexivity].
    apply Z.eqb_eq in Hr_id.
    assert (r = u) as -> by (apply (key_injective id db); assumption).
    rewrite Hu. apply bool_decide_eq_true. apply bool_decide_eq_true in Hu.
    congruence.
Qed.



(** X14.  [update_password] replaces the hash of the user with the address and
    of no other user, and returns the updated user, who is found under
    the address afterwards; for an address no user has it raises
    [NoResultFound] and leaves the table as it was. *)
Theorem update_password_effect (db : list User) (mail hashed : string) :
  (UserRepository.get_user_by_email db mail = Ok None ->
   UserRepository.update_password db mail hashed = (db, Raise NoResultFound))
  /\ (forall u,
        UserRepository.get_user_by_email db mail = Ok (Some u) ->
        exists db',
          let u' :=
            mkUser (id u) (username u) (email u) hashed (role u)
              (confirmed u) (avatar u) in
          UserRepository.update_password db mail hashed = (db', Ok u')
          /\ UserRepository.get_user_by_email db' mail = Ok (Some u')
          /\ (forall r, In r db -> email r <> mail -> In r db')
          /\ length db' = length db).
Proof.
  unfold UserRepository.update_password, UserRepository.get_user_by_email.
  split.
  - intros H.
    pose proof (scalar_one_or_none_filter_none _ _ H) as Hnone.
    rewrite (filter_none _ db Hnone). simpl. f_equal.
    rewrite <- (List.map_id db) at 2. apply List.map_ext_in.
    intros r Hr. now rewrite (Hnone r Hr).
  - intros u H. apply scalar_one_or_none_single in H as Hrows.
    eexists. cbv zeta. rewrite Hrows. simpl List.map at 2.
    split; [reflexivity|]. split; [|split].
    + rewrite filter_map_stable.
      * rewrite Hrows. simpl.
        destruct (scalar_one_or_none_some _ _ _ H) as [_ Hu].
        simpl in Hu. rewrite Hu. reflexivity.
      * intros r _. simpl.
        destruct (bool_decide (email r = mail)) eqn:E; simpl; exact E.
    + intros r Hr Hne. apply in_map_iff. exists r. split; [|exact Hr].
      now rewrite bool_decide_eq_false_2.
    + apply List.length_map.
Qed.

Lemma update_password_effect_witness :
  (UserRepository.get_user_by_email Sample.users "nobody@example.com"
   = Ok None
   /\ UserRepository.update_password Sample.users "nobody@example.com"
        "hash:new"
      = (Sample.users, Raise NoResultFound))
  /\ (UserRepository.get_user_by_email Sample.users "bob@example.com"
      = Ok (Some Sample.bob)
      /\ exists db',
           UserRepository.update_password Sample.users "bob@example.com"
             "hash:new"
           = (db', Ok (mkUser 2 "bob" "bob@example.com" "hash:new" USER
                         false None))
           /\ UserRepository.get_user_by_email db' "bob@example.com"
              = Ok (Some (mkUser 2 "bob" "bob@example.com" "hash:new" USER
                            false None))).
Proof.
  split.
  - split; [reflexivity|].
    exact (proj1 (update_password_effect Sample.users "nobody@example.com"
                    "hash:new") eq_refl).
  - split; [reflexivity|].
    destruct (proj2 (update_password_effect Sample.users "bob@example.com"
                       "hash:new") Sample.bob eq_refl)
      as [db' [H1 [H2 _]]].
    exists db'. split; [exact H1|exact H2].
Defined.

(** ** Issuing and decoding tokens *)

Section IssuedTokens.

Variable sign : string -> string -> gmap string json -> string.
Variable config : Settings.

(** A token of this program, carrying a string subject and a numeric
    expiry, decodes to its claims until the expiry has passed. *)
Lemma decode_issued (claims : gmap string json) (expire : Z) (sub : string)
    (now : Z) :
  claims !! "exp" = Some (JInt expire) ->
  claims !! "sub" = Some (JStr sub) ->
  Jwt.decode sign
    (Jwt.encode sign claims (JWT_SECRET config) (JWT_ALGORITHM config))
    (JWT_SECRET config) [JWT_ALGORITHM config] now
  = if expire <? now then Raise (JWTError ExpiredSignatureError)
    else Ok claims.
Proof.
  intros Hexp Hsub. rewrite decode_encode.
  unfold Jwt.validate_exp, Jwt.validate_sub. rewrite Hexp.
  destruct (expire <? now); simpl; [reflexivity|]. now rewrite Hsub.
Qed.

Lemma access_token_claims (name : string) (expire : Z) :
  let claims : gmap string json :=
    <["exp" := JInt expire]> (<["sub" := JStr name]> ∅) in
  claims !! "exp" = Some (JInt expire)
  /\ claims !! "sub" = Some (JStr name).
Proof.
  simpl. split.
  - apply lookup_insert_eq.
  - rewrite lookup_insert_ne by discriminate. apply lookup_insert_eq.
Qed.

Lemma email_token_claims (mail : string) (issued expire : Z) :
  let claims : gmap string json :=
    <["exp" := JInt expire]>
      (<["iat" := JInt issued]> (<["sub" := JStr mail]> ∅)) in
  claims !! "exp" = Some (JInt expire)
  /\ claims !! "sub" = Some (JStr mail).
Proof.
  simpl. split.
  - apply lookup_insert_eq.
  - rewrite !lookup_insert_ne by discriminate. apply lookup_insert_eq.
Qed.

Lemma decode_access_token (name : string) (delta : option Z)
    (issued now : Z) :
  Jwt.decode sign
    (AuthService.create_access_token sign config
       (<["sub" := JStr name]> ∅) delta issued)
    (JWT_SECRET config) [JWT_ALGORITHM config] now
  = if issued + AuthService.lifetime config delta <? now
    then Raise (JWTError ExpiredSignatureError)
    else Ok (<["exp" := JInt (issued + AuthService.lifetime config delta)]>
               (<["sub" := JStr name]> ∅)).
Proof.
  unfold AuthService.create_access_token.
  destruct (access_token_claims name
              (issued + AuthService.lifetime config delta)) as [H1 H2].
  now apply decode_issued with (sub := name).
Qed.

Lemma decode_email_token (mail : string) (issued now : Z) :
  Jwt.decode sign
    (AuthService.create_email_token sign config
       (<["sub" := JStr mail]> ∅) issued)
    (JWT_SECRET config) [JWT_ALGORITHM config] now
  = if issued + 7 * 86400 <? now
    then Raise (JWTError ExpiredSignatureError)
    else Ok (<["exp" := JInt (issued + 7 * 86400)]>
               (<["iat" := JInt issued]> (<["sub" := JStr mail]> ∅))).
Proof.
  unfold AuthService.create_email_token.
  destruct (email_token_claims mail issued (issued + 7 * 86400)) as [H1 H2].
  now apply decode_issued with (sub := mail).
Qed.

Lemma decode_reset_token_issued (mail : string) (issued now : Z) :
  Jwt.decode sign
    (AuthService.create_reset_token sign config mail issued)
    (JWT_SECRET config) [JWT_ALGORITHM config] now
  = if issued + 3600 <? now then Raise (JWTError ExpiredSignatureError)
    else Ok (<["sub" := JStr mail]> (<["exp" := JInt (issued + 3600)]> ∅)).
Proof.
  unfold AuthService.create_reset_token.
  destruct (reset_token_claims mail (issued + 3600)) as [H1 H2].
  now apply decode_issued with (sub := mail).
Qed.

End IssuedTokens.



(** X16.  The confirmation token round trip.  The token made for an address
    decodes to that address for seven days, and is answered with the 422
    response afterwards. *)
Theorem email_token_round_trip
    (sign : string -> string -> gmap string json -> string)
    (config : Settings) (mail : string) (issued now : Z) :
  let t :=
    AuthService.create_email_token sign config
      (<["sub" := JStr mail]> ∅) issued in
  (now <= issued + 604800 ->
   AuthService.get_email_from_token sign config t now = Ok (JStr mail))
  /\ (issued + 604800 < now ->
      exists detail,
        AuthService.get_email_from_token sign config t now
        = Raise (HTTPException 422 detail)).
Proof.
  intros t. unfold AuthService.get_email_from_token. subst t.
  rewrite decode_email_token.
  split; intros H.
  - destruct (Z.ltb_spec (issued + 7 * 86400) now); [lia|]. simpl.
    rewrite !lookup_insert_ne by discriminate.
    now rewrite lookup_insert_eq.
  - destruct (Z.ltb_spec (issued + 7 * 86400) now); [|lia].
    eexists. reflexivity.
Qed.

Lemma email_token_round_trip_witness :
  (1000 <= 1000 + 604800
   /\ AuthService.get_email_from_token Sample.sign Sample.config
        (AuthService.create_email_token Sample.sign Sample.config
           (<["sub" := JStr "bob@example.com"]> ∅) 1000) 1000
      = Ok (JStr "bob@example.com"))
  /\ (1000 + 604800 < 605801
      /\ exists detail,
           AuthService.get_email_from_token Sample.sign Sample.config
             (AuthService.create_email_token Sample.sign Sample.config
                (<["sub" := JStr "bob@example.com"]> ∅) 1000) 605801
           = Raise (HTTPException 422 detail)).
Proof.
  assert (H1 : 1000 <= 1000 + 604800) by lia.
  assert (H2 : 1000 + 604800 < 605801) by lia.
  split; (split; [assumption|]).
  - exact (proj1 (email_token_round_trip Sample.sign Sample.config
                    "bob@example.com" 1000 1000) H1).
  - exact (proj2 (email_token_round_trip Sample.sign Sample.config
                    "bob@example.com" 1000 605801) H2).
Defined.

(** X17.  The tokens carry no purpose: each decoder accepts the tokens of the
    other issuers.  A reset token is accepted as a bearer token and
    resolves to the e-mail address as the subject; a confirmation token
    is accepted by the reset decoder; a bearer token is accepted by the
    confirmation decoder, with the username as the address. *)
Theorem token_kinds_interchangeable
    (sign : string -> string -> gmap string json -> string)
    (config : Settings) (sub : string) (issued now : Z) :
  (now <= issued + 3600 ->
   AuthService.subject sign config
     (AuthService.create_reset_token sign config sub issued) now
   = Ok (JStr sub))
  /\ (now <= issued + 604800 ->
      AuthService.decode_reset_token sign config
        (AuthService.create_email_token sign config
           (<["sub" := JStr sub]> ∅) issued) now
      = Ok (Some (JStr sub)))
  /\ (now <= issued + JWT_EXPIRATION_SECONDS config ->
      AuthService.get_email_from_token sign config
        (AuthService.create_access_token sign config
           (<["sub" := JStr sub]> ∅) None issued) now
      = Ok (JStr sub)).
Proof.
  split; [|split]; intros H.
  - unfold AuthService.subject. rewrite decode_reset_token_issued.
    destruct (Z.ltb_spec (issued + 3600) now); [lia|]. simpl.
    now rewrite lookup_insert_eq.
  - unfold AuthService.decode_reset_token. rewrite decode_email_token.
    destruct (Z.ltb_spec (issued + 7 * 86400) now); [lia|]. simpl.
    rewrite !lookup_insert_ne by discriminate.
    now rewrite lookup_insert_eq.
  - unfold AuthService.get_email_from_token. rewrite decode_access_token.
    simpl AuthService.lifetime.
    destruct (Z.ltb_spec (issued + JWT_EXPIRATION_SECONDS config) now);
      [lia|]. simpl.
    rewrite lookup_insert_ne by discriminate.
    now rewrite lookup_insert_eq.
Qed.

Lemma token_kinds_interchangeable_witness :
  (1000 <= 1000 + 3600
   /\ AuthService.subject Sample.sign Sample.config
        (AuthService.create_reset_token Sample.sign Sample.config
           "bob@example.com" 1000) 1000
      = Ok (JStr "bob@example.com"))
  /\ (90000 <= 1000 + 604800
      /\ AuthService.decode_reset_token Sample.sign Sample.config
           (AuthService.create_email_token Sample.sign Sample.config
              (<["sub" := JStr "bob@example.com"]> ∅) 1000) 90000
         = Ok (Some (JStr "bob@example.com")))
  /\ (1000 <= 1000 + JWT_EXPIRATION_SECONDS Sample.config
      /\ AuthService.get_email_from_token Sample.sign Sample.config
           (AuthService.create_access_token Sample.sign Sample.config
              (<["sub" := JStr "bob"]> ∅) None 1000) 1000
         = Ok (JStr "bob")).
Proof.
  assert (H1 : 1000 <= 1000 + 3600) by lia.
  assert (H2 : 90000 <= 1000 + 604800) by lia.
  assert (H3 : 1000 <= 1000 + JWT_EXPIRATION_SECONDS Sample.config)
    by (simpl; lia).
  split; [|split]; (split; [assumption|]).
  - exact (proj1 (token_kinds_interchangeable Sample.sign Sample.config
                    "bob@example.com" 1000 1000) H1).
  - exact (proj1 (proj2 (token_kinds_interchangeable Sample.sign
                           Sample.config "bob@example.com" 1000 90000))
             H2).
  - exact (proj2 (proj2 (token_kinds_interchangeable Sample.sign
                           Sample.config "bob" 1000 1000)) H3).
Defined.

(** X18.  The link of the reset e-mail lives seven days.  The token that
    [send_reset_password_email] puts into the link is made by
    [create_email_token], not by [create_reset_token]: the reset-password
    form accepts it until seven days after the message was built, and
    answers "Invalid or expired token" afterwards. *)
Theorem reset_link_lifetime
    (sign : string -> string -> gmap string json -> string)
    (config : Settings) (mail name host : string) (sent now : Z) :
  let token :=
    Mail.body_token
      (Mail.send_reset_password_email sign config mail name host sent) in
  (now <= sent + 604800 ->
   AuthApi.reset_password_form sign config token now
   = Ok (AuthApi.mkTemplateResponse "reset_password_form.html" token))
  /\ (sent + 604800 < now ->
      AuthApi.reset_password_form sign config token now
      = Raise (HTTPException 400 "Invalid or expired token")).
Proof.
  intros token. subst token. simpl Mail.body_token.
  unfold AuthApi.reset_password_form, AuthService.decode_reset_token.
  rewrite decode_email_token.
  split; intros H.
  - destruct (Z.ltb_spec (sent + 7 * 86400) now); [lia|reflexivity].
  - destruct (Z.ltb_spec (sent + 7 * 86400) now); [reflexivity|lia].
Qed.

Lemma reset_link_lifetime_witness :
  (90000 <= 1000 + 604800
   /\ exists response,
        AuthApi.reset_password_form Sample.sign Sample.config
          (Mail.body_token
             (Mail.send_reset_password_email Sample.sign Sample.config
                "bob@example.com" "bob" "http://host/" 1000)) 90000
        = Ok response)
  /\ (1000 + 604800 < 605801
      /\ AuthApi.reset_password_form Sample.sign Sample.config
           (Mail.body_token
              (Mail.send_reset_password_email Sample.sign Sample.config
                 "bob@example.com" "bob" "http://host/" 1000)) 605801
         = Raise (HTTPException 400 "Invalid or expired token")).
Proof.
  assert (H1 : 90000 <= 1000 + 604800) by lia.
  assert (H2 : 1000 + 604800 < 605801) by lia.
  split; (split; [assumption|]).
  - eexists.
    exact (proj1 (reset_link_lifetime Sample.sign Sample.config
                    "bob@example.com" "bob" "http://host/" 1000 90000) H1).
  - exact (proj2 (reset_link_lifetime Sample.sign Sample.config
                    "bob@example.com" "bob" "http://host/" 1000 605801) H2).
Defined.

(** Text that is not a token, a token of another algorithm and a token
    whose signature is not the keyed signature of its payload are refused
    by the decoder. *)
Lemma decode_forged
    (sign : string -> string -> gmap string json -> string)
    (key : string) (algorithm : string) (t : Jwt.token) (now : Z) :
  match t with
  | Jwt.Opaque _ => True
  | Jwt.Compact alg payload signature =>
      alg <> algorithm \/ signature <> sign alg key payload
  end ->
  Jwt.decode sign t key [algorithm] now = Raise (JWTError JWSInvalid).
Proof.
  destruct t as [text|alg payload signature]; simpl; [reflexivity|].
  intros [H|H].
  - rewrite bool_decide_eq_false_2; [reflexivity|].
    intros Hin. apply list_elem_of_In in Hin.
    destruct Hin as [Heq|[]]. now apply H.
  - rewrite (bool_decide_eq_false_2 (signature = _)) by exact H.
    now rewrite andb_false_r.
Qed.

(** X19.  A token that was not signed with the secret authenticates nowhere:
    as a bearer it gets the 401 response and leaves the cache alone, as a
    confirmation token the 422 response, as a reset token the 400
    response, and neither route changes the users table. *)
Theorem forged_token_refused
    (sign : string -> string -> gmap string json -> string)
    (config : Settings) (UserOut : Type) (dumps_user : User -> string)
    (loads_user : string -> result UserOut)
    (get_password_hash : string -> string)
    (t : Jwt.token) (db : list User) (redis : Redis.client)
    (new_password : string) (now : Z) :
  match t with
  | Jwt.Opaque _ => True
  | Jwt.Compact alg payload signature =>
      alg <> JWT_ALGORITHM config
      \/ signature <> sign alg (JWT_SECRET config) payload
  end ->
  AuthService.get_current_user sign config UserOut dumps_user loads_user
    t db redis now
  = (Raise (HTTPException 401 "Could not validate credentials"), redis)
  /\ (exists detail,
        AuthApi.confirmed_email sign config db t now
        = (db, Raise (HTTPException 422 detail)))
  /\ AuthApi.reset_password_form sign config t now
     = Raise (HTTPException 400 "Invalid or expired token")
  /\ AuthApi.reset_password sign config get_password_hash db t
       new_password now
     = (db, Raise (HTTPException 400 "Invalid or expired token")).
Proof.
  intros H.
  pose proof (decode_forged sign (JWT_SECRET config) (JWT_ALGORITHM config)
                t now H) as Hdec.
  split; [|split; [|split]].
  - now apply (get_current_user_refused _ _ _ _ _ _ _ _ _ _ Hdec).
  - unfold AuthApi.confirmed_email, AuthService.get_email_from_token.
    rewrite Hdec. eexists. reflexivity.
  - unfold AuthApi.reset_password_form, AuthService.decode_reset_token.
    now rewrite Hdec.
  - unfold AuthApi.reset_password, AuthService.decode_reset_token.
    now rewrite Hdec.
Qed.

Lemma forged_token_refused_witness :
  "forged" <> Sample.sign "HS256" (JWT_SECRET Sample.config)
                (<["sub" := JStr "alice"]> ∅)
  /\ AuthService.get_current_user Sample.sign Sample.config string
       Sample.dumps_user Sample.loads_user
       (Jwt.Compact "HS256" (<["sub" := JStr "alice"]> ∅) "forged")
       Sample.users Sample.warm_cache 1500
     = (Raise (HTTPException 401 "Could not validate credentials"),
        Sample.warm_cache).
Proof.
  assert (H : "forged" <> Sample.sign "HS256" (JWT_SECRET Sample.config)
                            (<["sub" := JStr "alice"]> ∅))
    by (vm_compute; discriminate).
  split; [exact H|].
  exact (proj1 (forged_token_refused Sample.sign Sample.config string
                  Sample.dumps_user Sample.loads_user
                  Sample.get_password_hash
                  (Jwt.Compact "HS256" (<["sub" := JStr "alice"]> ∅)
                     "forged")
                  Sample.users Sample.warm_cache "x" 1500
                  (or_intror H))).
Defined.

(** ** Refilling the cache *)

(** X20.  A resolution that misses the cache fills it: the directory's user is
    returned and its snapshot is stored under the subject for 3600
    seconds, during which every further resolution of the token is served
    from the snapshot, whatever the directory has become. *)
Theorem get_current_user_refills_cache
    (sign : string -> string -> gmap string json -> string)
    (config : Settings) (UserOut : Type) (dumps_user : User -> string)
    (loads_user : string -> result UserOut)
    (t : Jwt.token) (payload : gmap string json) (name : string) (u : User)
    (db : list User) (redis : Redis.client) (now : Z) :
  Jwt.decode sign t (JWT_SECRET config) [JWT_ALGORITHM config] now
  = Ok payload ->
  payload !! "sub" = Some (JStr name) ->
  Redis.get redis ("user:" +:+ name) now = Ok None ->
  Redis.set_unavailable redis = false ->
  UserRepository.get_user_by_username db name = Ok (Some u) ->
  exists redis',
    AuthService.get_current_user sign config UserOut dumps_user loads_user
      t db redis now
    = (Ok (AuthService.OrmUser u), redis')
    /\ Redis.entries redis' !! ("user:" +:+ name)
       = Some (dumps_user u, now + 3600)
    /\ forall (db' : list User) (later : Z) (v : UserOut),
         later < now + 3600 ->
         Jwt.decode sign t (JWT_SECRET config) [JWT_ALGORITHM config] later
         = Ok payload ->
         AuthService.load_cached UserOut loads_user (dumps_user u) = Ok v ->
         AuthService.get_current_user sign config UserOut dumps_user
           loads_user t db' redis' later
         = (Ok (AuthService.SchemaUser v), redis').
Proof.
  intros Hdec Hsub Hmiss Hset Hu.
  assert (Hup : Redis.get_unavailable redis = false).
  { unfold Redis.get in Hmiss.
    destruct (Redis.get_unavailable redis); [discriminate|reflexivity]. }
  unfold AuthService.get_current_user.
  rewrite (subject_accepted sign config t now payload name Hdec Hsub).
  simpl Py.str. rewrite cached_miss by exact Hmiss.
  unfold UserService.get_user_by_username. rewrite Hu.
  rewrite refill_total, Hset. eexists. split; [reflexivity|].
  split; [simpl; apply lookup_insert_eq|].
  intros db' later v Hlater Hdec' Hload.
  rewrite (subject_accepted sign config t later payload name Hdec' Hsub).
  simpl Py.str.
  rewrite (cached_hit UserOut loads_user _ _ (dumps_user u) later v);
    [reflexivity| |exact Hload].
  unfold Redis.get. simpl. rewrite Hup, lookup_insert_eq.
  destruct (Z.ltb_spec later (now + 3600)); [reflexivity|lia].
Qed.

Lemma get_current_user_refills_cache_witness :
  Jwt.decode Sample.sign Sample.alice_token (JWT_SECRET Sample.config)
    [JWT_ALGORITHM Sample.config] 1000 = Ok Sample.alice_claims
  /\ Sample.alice_claims !! "sub" = Some (JStr "alice")
  /\ Redis.get Sample.empty_cache ("user:" +:+ "alice") 1000 = Ok None
  /\ Redis.set_unavailable Sample.empty_cache = false
  /\ UserRepository.get_user_by_username Sample.users "alice"
     = Ok (Some Sample.alice)
  /\ exists redis',
       AuthService.get_current_user Sample.sign Sample.config string
         Sample.dumps_user Sample.loads_user Sample.alice_token
         Sample.users Sample.empty_cache 1000
       = (Ok (AuthService.OrmUser Sample.alice), redis')
       /\ Redis.entries redis' !! ("user:" +:+ "alice")
          = Some ("alice", 1000 + 3600).
Proof.
  assert (Hdec : Jwt.decode Sample.sign Sample.alice_token
                   (JWT_SECRET Sample.config) [JWT_ALGORITHM Sample.config]
                   1000 = Ok Sample.alice_claims)
    by (vm_compute; reflexivity).
  assert (Hsub : Sample.alice_claims !! "sub" = Some (JStr "alice"))
    by (vm_compute; reflexivity).
  assert (Hmiss : Redis.get Sample.empty_cache ("user:" +:+ "alice") 1000
                  = Ok None) by (vm_compute; reflexivity).
  split; [exact Hdec|]. split; [exact Hsub|]. split; [exact Hmiss|].
  split; [reflexivity|]. split; [reflexivity|].
  destruct (get_current_user_refills_cache Sample.sign Sample.config string
              Sample.dumps_user Sample.loads_user Sample.alice_token
              Sample.alice_claims "alice" Sample.alice Sample.users
              Sample.empty_cache 1000 Hdec Hsub Hmiss eq_refl eq_refl)
    as [redis' [H1 [H2 _]]].
  exists redis'. split; [exact H1|exact H2].
Defined.

(** X21.  A valid token whose subject is neither cached nor in the directory is
    answered with the 401 response, and nothing is written to the cache:
    an absent user is never cached. *)
Theorem get_current_user_unknown_subject
    (sign : string -> string -> gmap string json -> string)
    (config : Settings) (UserOut : Type) (dumps_user : User -> string)
    (loads_user : string -> result UserOut)
    (t : Jwt.token) (payload : gmap string json) (name : string)
    (db : list User) (redis : Redis.client) (now : Z) :
  Jwt.decode sign t (JWT_SECRET config) [JWT_ALGORITHM config] now
  = Ok payload ->
  payload !! "sub" = Some (JStr name) ->
  Redis.get_unavailable redis = true
  \/ Redis.get redis ("user:" +:+ name) now = Ok None ->
  UserRepository.get_user_by_username db name = Ok None ->
  AuthService.get_current_user sign config UserOut dumps_user loads_user
    t db redis now
  = (Raise (HTTPException 401 "Could not validate credentials"), redis).
Proof.
  intros Hdec Hsub Hcache Hu.
  unfold AuthService.get_current_user.
  rewrite (subject_accepted sign config t now payload name Hdec Hsub).
  simpl Py.str.
  assert (Hmiss : AuthService.cached UserOut loads_user redis
                    ("user:" +:+ name) now = Ok None).
  { destruct Hcache as [H|H];
      [now apply cached_unavailable|now apply cached_miss]. }
  rewrite Hmiss. unfold UserService.get_user_by_username.
  now rewrite Hu.
Qed.

Lemma get_current_user_unknown_subject_witness :
  Jwt.decode Sample.sign Sample.alice_token (JWT_SECRET Sample.config)
    [JWT_ALGORITHM Sample.config] 1000 = Ok Sample.alice_claims
  /\ Sample.alice_claims !! "sub" = Some (JStr "alice")
  /\ Redis.get Sample.empty_cache ("user:" +:+ "alice") 1000 = Ok None
  /\ UserRepository.get_user_by_username [Sample.bob] "alice" = Ok None
  /\ AuthService.get_current_user Sample.sign Sample.config string
       Sample.dumps_user Sample.loads_user Sample.alice_token
       [Sample.bob] Sample.empty_cache 1000
     = (Raise (HTTPException 401 "Could not validate credentials"),
        Sample.empty_cache).
Proof.
  assert (Hdec : Jwt.decode Sample.sign Sample.alice_token
                   (JWT_SECRET Sample.config) [JWT_ALGORITHM Sample.config]
                   1000 = Ok Sample.alice_claims)
    by (vm_compute; reflexivity).
  assert (Hsub : Sample.alice_claims !! "sub" = Some (JStr "alice"))
    by (vm_compute; reflexivity).
  assert (Hmiss : Redis.get Sample.empty_cache ("user:" +:+ "alice") 1000
                  = Ok None) by (vm_compute; reflexivity).
  split; [exact Hdec|]. split; [exact Hsub|]. split; [exact Hmiss|].
  split; [reflexivity|].
  exact (get_current_user_unknown_subject Sample.sign Sample.config string
           Sample.dumps_user Sample.loads_user Sample.alice_token
           Sample.alice_claims "alice" [Sample.bob] Sample.empty_cache 1000
           Hdec Hsub (or_intror Hmiss) eq_refl).
Defined.

(** ** Registration *)

Lemma filter_app_new {A : Type} (p : A -> bool) (l : list A) (x : A) :
  Query.scalar_one_or_none (List.filter p l) = Ok None ->
  p x = true ->
  Query.scalar_one_or_none (List.filter p (l ++ [x])) = Ok (Some x).
Proof.
  intros Hnone Hx. rewrite List.filter_app.
  rewrite (filter_none p l (scalar_one_or_none_filter_none p l Hnone)).
  simpl. now rewrite Hx.
Qed.

(** A stored change that keeps the id and the username of the user found
    under a username is found under that username. *)
Lemma get_user_by_username_stored (db : list User) (name : string)
    (u u' : User) :
  Spec.users_primary_key db ->
  UserRepository.get_user_by_username db name = Ok (Some u) ->
  id u' = id u -> username u' = username u ->
  UserRepository.get_user_by_username (UserRepository.store db u') name
  = Ok (Some u').
Proof.
  intros Hpk Hget Hid Hname.
  unfold UserRepository.get_user_by_username in *.
  pose proof (scalar_one_or_none_some _ _ _ Hget) as [Hin Hu].
  apply scalar_one_or_none_single in Hget.
  unfold UserRepository.store. rewrite filter_map_stable.
  - rewrite Hget. simpl. now rewrite Hid, Z.eqb_refl.
  - intros r Hr. simpl. rewrite Hid.
    destruct (id r =? id u) eqn:Hr_id; [|reflexivity].
    apply Z.eqb_eq in Hr_id.
    assert (r = u) as -> by (apply (key_injective id db); assumption).
    rewrite Hu. apply bool_decide_eq_true. apply bool_decide_eq_true in Hu.
    congruence.
Qed.

Section RegistrationFacts.

Variable get_password_hash : string -> string.
Variable integrity : list User -> bool.
Variable next_id : list User -> Z.
Variable new_avatar : option string.

(** What a successful registration did. *)
Lemma register_user_inv (db db' : list User)
    (data : UserRepository.UserCreate) (url : string) (u : User)
    (tasks : list Mail.task) :
  AuthApi.register_user get_password_hash integrity next_id new_avatar
    db data url = (db', Ok (u, tasks)) ->
  UserRepository.get_user_by_email db (UserRepository.body_email data)
  = Ok None
  /\ UserRepository.get_user_by_username db
       (UserRepository.body_username data) = Ok None
  /\ u = mkUser (next_id db) (UserRepository.body_username data)
           (UserRepository.body_email data)
           (get_password_hash (UserRepository.body_password data))
           (UserRepository.body_role data) false new_avatar
  /\ db' = db ++ [u]
  /\ tasks = [Mail.SendEmail (UserRepository.body_email data)
                (UserRepository.body_username data) url].
Proof.
  unfold AuthApi.register_user, UserService.get_user_by_email,
    UserService.get_user_by_username, UserService.create_user,
    UserRepository.create_user.
  destruct (UserRepository.get_user_by_email db _) as [[?|]|?];
    try (intros [=]; fail).
  destruct (UserRepository.get_user_by_username db _) as [[?|]|?];
    try (intros [=]; fail).
  simpl. destruct (integrity _); intros [= <- <- <-].
  repeat split.
Qed.

Lemma registered_user_found (db : list User)
    (data : UserRepository.UserCreate) (u : User) :
  UserRepository.get_user_by_email db (UserRepository.body_email data)
  = Ok None ->
  UserRepository.get_user_by_username db
    (UserRepository.body_username data) = Ok None ->
  email u = UserRepository.body_email data ->
  username u = UserRepository.body_username data ->
  UserRepository.get_user_by_email (db ++ [u])
    (UserRepository.body_email data) = Ok (Some u)
  /\ UserRepository.get_user_by_username (db ++ [u])
       (UserRepository.body_username data) = Ok (Some u).
Proof.
  intros He Hn Hue Hun. split.
  - apply filter_app_new; [exact He|now apply bool_decide_eq_true].
  - apply filter_app_new; [exact Hn|now apply bool_decide_eq_true].
Qed.

(** X22.  Registration stores the hash of the password, never the password, an
    unconfirmed user, and schedules the confirmation e-mail; a second
    registration under the same address, or under the same username with
    an address no user has, is refused with the 409 response and leaves
    the table as the first one left it. *)
Theorem register_user_twice (db db' : list User)
    (data : UserRepository.UserCreate) (url : string) (u : User)
    (tasks : list Mail.task) :
  AuthApi.register_user get_password_hash integrity next_id new_avatar
    db data url = (db', Ok (u, tasks)) ->
  (db' = db ++ [u]
   /\ hashed_password u
      = get_password_hash (UserRepository.body_password data)
   /\ confirmed u = false
   /\ tasks = [Mail.SendEmail (email u) (username u) url])
  /\ forall (data' : UserRepository.UserCreate) (url' : string),
       UserRepository.body_email data' = UserRepository.body_email data
       \/ (UserRepository.body_username data'
           = UserRepository.body_username data
           /\ UserRepository.get_user_by_email db'
                (UserRepository.body_email data') = Ok None) ->
       exists detail,
         AuthApi.register_user get_password_hash integrity next_id
           new_avatar db' data' url'
         = (db', Raise (HTTPException 409 detail)).
Proof.
  intros Hreg.
  apply register_user_inv in Hreg as [He [Hn [-> [-> ->]]]].
  split; [repeat split|].
  set (u := mkUser _ _ _ _ _ _ _).
  destruct (registered_user_found db data u He Hn eq_refl eq_refl)
    as [He' Hn'].
  intros data' url' [Hsame|[Hsame Hfree]];
    unfold AuthApi.register_user, UserService.get_user_by_email,
      UserService.get_user_by_username.
  - rewrite Hsame, He'. eexists. reflexivity.
  - rewrite Hfree, Hsame, Hn'. eexists. reflexivity.
Qed.

End RegistrationFacts.

Lemma register_user_twice_witness :
  exists db' u tasks,
    AuthApi.register_user Sample.get_password_hash Sample.unique_users
      Sample.user_serial None Sample.users Sample.carol "http://host/"
    = (db', Ok (u, tasks))
    /\ hashed_password u = "hash:looking-glass"
    /\ exists detail,
         AuthApi.register_user Sample.get_password_hash Sample.unique_users
           Sample.user_serial None db' Sample.carol "http://host/"
         = (db', Raise (HTTPException 409 detail)).
Proof.
  eexists. eexists. eexists. split; [vm_compute; reflexivity|].
  split; [reflexivity|].
  exact (proj2 (register_user_twice Sample.get_password_hash
                  Sample.unique_users Sample.user_serial None Sample.users
                  _ Sample.carol "http://host/" _ _ eq_refl)
           Sample.carol "http://host/" (or_introl eq_refl)).
Defined.

(** ** From registration to login *)

(** The confirmation token of a message decodes to the address it was
    made for, during seven days. *)
Lemma get_email_from_token_issued
    (sign : string -> string -> gmap string json -> string)
    (config : Settings) (mail : string) (sent now : Z) :
  now <= sent + 604800 ->
  AuthService.get_email_from_token sign config
    (AuthService.create_email_token sign config
       (<["sub" := JStr mail]> ∅) sent) now
  = Ok (JStr mail).
Proof.
  intros H. unfold AuthService.get_email_from_token.
  rewrite decode_email_token.
  destruct (Z.ltb_spec (sent + 7 * 86400) now); [lia|]. simpl.
  rewrite !lookup_insert_ne by discriminate.
  now rewrite lookup_insert_eq.
Qed.

(** X23.  The whole path of a new user.  After a registration, a login with the
    registered password is refused while the address is unconfirmed;
    the token of the scheduled confirmation e-mail, presented within
    seven days, confirms the address; from then on the login succeeds,
    and presenting the token again changes nothing. *)
Theorem registration_flow
    (sign : string -> string -> gmap string json -> string)
    (config : Settings) (verify_password : string -> string -> bool)
    (get_password_hash : string -> string)
    (integrity : list User -> bool) (next_id : list User -> Z)
    (new_avatar : option string)
    (db db1 : list User) (data : UserRepository.UserCreate) (url : string)
    (u : User) (tasks : list Mail.task) (sent now : Z) :
  let name := UserRepository.body_username data in
  let password := UserRepository.body_password data in
  AuthApi.register_user get_password_hash integrity next_id new_avatar
    db data url = (db1, Ok (u, tasks)) ->
  Spec.users_primary_key db1 ->
  verify_password password (get_password_hash password) = true ->
  now <= sent + 604800 ->
  exists task db2,
    tasks = [task]
    /\ (forall t,
          AuthApi.login_user sign config verify_password db1 name password t
          = Raise (HTTPException 401 "Електронна адреса не підтверджена"))
    /\ AuthApi.confirmed_email sign config db1
         (Mail.body_token (Mail.run sign config task sent)) now
       = (db2, Ok "Електронну пошту підтверджено")
    /\ (forall t, exists token,
          AuthApi.login_user sign config verify_password db2 name password t
          = Ok token)
    /\ AuthApi.confirmed_email sign config db2
         (Mail.body_token (Mail.run sign config task sent)) now
       = (db2, Ok "Ваша електронна пошта вже підтверджена").
Proof.
  intros name password Hreg Hpk Hhash Hnow.
  apply register_user_inv in Hreg as [He [Hn [Hu [Hdb Htasks]]]].
  set (mail := UserRepository.body_email data) in *.
  assert (Hmail : email u = mail) by (now rewrite Hu).
  assert (Hname : username u = name) by (now rewrite Hu).
  assert (Hpw : hashed_password u = get_password_hash password)
    by (now rewrite Hu).
  assert (Hconf : confirmed u = false) by (now rewrite Hu).
  destruct (registered_user_found db data u He Hn Hmail Hname)
    as [He1 Hn1].
  rewrite <- Hdb in He1, Hn1. fold mail in He1. fold name in Hn1.
  set (u' := UserRepository.set_confirmed u).
  exists (Mail.SendEmail mail name url), (UserRepository.store db1 u').
  assert (Htok : AuthService.get_email_from_token sign config
                   (Mail.body_token
                      (Mail.run sign config (Mail.SendEmail mail name url)
                         sent)) now = Ok (JStr mail))
    by (now apply get_email_from_token_issued).
  assert (He2 : UserRepository.get_user_by_email
                  (UserRepository.store db1 u') mail = Ok (Some u'))
    by (now apply (get_user_by_email_stored db1 mail u)).
  assert (Hn2 : UserRepository.get_user_by_username
                  (UserRepository.store db1 u') name = Ok (Some u'))
    by (now apply (get_user_by_username_stored db1 name u)).
  split; [exact Htasks|]. split; [|split; [|split]].
  - intros t. unfold AuthApi.login_user, UserService.get_user_by_username.
    rewrite Hn1. simpl. now rewrite Hpw, Hhash, Hconf.
  - unfold AuthApi.confirmed_email. rewrite Htok.
    unfold UserService.get_user_by_email, UserService.confirmed_email,
      UserRepository.confirmed_email.
    simpl Py.str. now rewrite He1, Hconf.
  - intros t. unfold AuthApi.login_user, UserService.get_user_by_username.
    rewrite Hn2. simpl. rewrite Hpw, Hhash. simpl. eexists. reflexivity.
  - unfold AuthApi.confirmed_email. rewrite Htok.
    unfold UserService.get_user_by_email. simpl Py.str.
    now rewrite He2.
Qed.

Lemma registration_flow_witness :
  exists db1 u tasks,
    AuthApi.register_user Sample.get_password_hash Sample.unique_users
      Sample.user_serial None Sample.users Sample.carol "http://host/"
    = (db1, Ok (u, tasks))
    /\ Spec.users_primary_key db1
    /\ Sample.verify_password "looking-glass"
         (Sample.get_password_hash "looking-glass") = true
    /\ 2000 <= 1000 + 604800
    /\ exists task db2,
         tasks = [task]
         /\ AuthApi.confirmed_email Sample.sign Sample.config db1
              (Mail.body_token
                 (Mail.run Sample.sign Sample.config task 1000)) 2000
            = (db2, Ok "Електронну пошту підтверджено")
         /\ forall t, exists token,
              AuthApi.login_user Sample.sign Sample.config
                Sample.verify_password db2 "carol" "looking-glass" t
              = Ok token.
Proof.
  eexists. eexists. eexists.
  assert (Hnow : 2000 <= 1000 + 604800) by lia.
  split; [vm_compute; reflexivity|].
  match goal with
  | |- Spec.users_primary_key ?db /\ _ =>
      assert (Hpk : Spec.users_primary_key db)
        by (unfold Spec.users_primary_key; apply (bool_decide_unpack _);
            vm_compute; exact I)
  end.
  split; [exact Hpk|]. split; [reflexivity|]. split; [exact Hnow|].
  destruct (registration_flow Sample.sign Sample.config
              Sample.verify_password Sample.get_password_hash
              Sample.unique_users Sample.user_serial None Sample.users _
              Sample.carol "http://host/" _ _ 1000 2000 eq_refl Hpk
              eq_refl Hnow)
    as [task [db2 [H1 [_ [H3 [H4 _]]]]]].
  exists task, db2. split; [exact H1|]. split; [exact H3|exact H4].
Defined.

(** ** Requests for an address *)



(** ** Resetting a password *)

Lemma update_password_found (db : list User) (mail hashed : string)
    (u : User) :
  UserRepository.get_user_by_email db mail = Ok (Some u) ->
  UserRepository.update_password db mail hashed
  = (List.map (fun r => if bool_decide (email r = mail)
                        then UserRepository.set_password hashed r else r) db,
     Ok (UserRepository.set_password hashed u)).
Proof.
  intros H. unfold UserRepository.update_password.
  apply scalar_one_or_none_single in H.
  unfold UserRepository.get_user_by_email in H. now rewrite H.
Qed.

Lemma get_user_by_username_updated (db : list User)
    (name mail hashed : string) (u : User) :
  UserRepository.get_user_by_username db name = Ok (Some u) ->
  email u = mail ->
  UserRepository.get_user_by_username
    (List.map (fun r => if bool_decide (email r = mail)
                        then UserRepository.set_password hashed r else r) db)
    name
  = Ok (Some (UserRepository.set_password hashed u)).
Proof.
  intros H Hmail. unfold UserRepository.get_user_by_username in *.
  apply scalar_one_or_none_single in H.
  rewrite filter_map_stable.
  - rewrite H. simpl. now rewrite bool_decide_eq_true_2.
  - intros r _.
    destruct (bool_decide (email r = mail)); reflexivity.
Qed.

(** X25.  The whole path of a password reset.  For a confirmed user, the reset
    request schedules the reset e-mail; the token of its link, presented
    within seven days with a new password, replaces the stored hash;
    afterwards the login succeeds with the new password and is refused
    with any password the new hash does not verify. *)
Theorem password_reset_flow
    (sign : string -> string -> gmap string json -> string)
    (config : Settings) (verify_password : string -> string -> bool)
    (get_password_hash : string -> string)
    (db : list User) (mail url new_password : string) (u : User)
    (sent now : Z) :
  UserRepository.get_user_by_email db mail = Ok (Some u) ->
  UserRepository.get_user_by_username db (username u) = Ok (Some u) ->
  confirmed u = true ->
  verify_password new_password (get_password_hash new_password) = true ->
  now <= sent + 604800 ->
  exists message task db',
    AuthApi.send_reset_password_token db mail url = Ok (message, [task])
    /\ AuthApi.reset_password sign config get_password_hash db
         (Mail.body_token (Mail.run sign config task sent))
         new_password now
       = (db', Ok "Password updated successfully")
    /\ (forall t, exists token,
          AuthApi.login_user sign config verify_password db' (username u)
            new_password t = Ok token)
    /\ (forall t other,
          verify_password other (get_password_hash new_password) = false ->
          exists detail,
            AuthApi.login_user sign config verify_password db' (username u)
              other t = Raise (HTTPException 401 detail)).
Proof.
  intros He Hn Hconf Hhash Hnow.
  assert (Hmail : email u = mail).
  { apply scalar_one_or_none_some in He as [_ H].
    now apply bool_decide_eq_true in H. }
  eexists. eexists. eexists. split.
  { unfold AuthApi.send_reset_password_token,
      UserService.get_user_by_email. rewrite He. reflexivity. }
  assert (Hreset : AuthApi.reset_password sign config get_password_hash db
                     (Mail.body_token
                        (Mail.run sign config
                           (Mail.SendResetPasswordEmail (email u)
                              (username u) url) sent))
                     new_password now
                   = (List.map
                        (fun r => if bool_decide (email r = mail)
                                  then UserRepository.set_password
                                         (get_password_hash new_password) r
                                  else r) db,
                      Ok "Password updated successfully")).
  { unfold AuthApi.reset_password, AuthService.decode_reset_token.
    simpl Mail.body_token. rewrite decode_email_token.
    destruct (Z.ltb_spec (sent + 7 * 86400) now); [lia|]. simpl mbind.
    rewrite !lookup_insert_ne by discriminate. rewrite lookup_insert_eq.
    unfold AuthApi.update_password_of, UserService.update_password.
    simpl Py.str. rewrite Hmail.
    now rewrite (update_password_found db mail _ u He). }
  split; [exact Hreset|].
  pose proof (get_user_by_username_updated db (username u) mail
                (get_password_hash new_password) u Hn Hmail) as Hn'.
  split.
  - intros t. unfold AuthApi.login_user, UserService.get_user_by_username.
    rewrite Hn'. simpl. rewrite Hhash, Hconf. simpl.
    eexists. reflexivity.
  - intros t other Hother.
    unfold AuthApi.login_user, UserService.get_user_by_username.
    rewrite Hn'. simpl. rewrite Hother. simpl. eexists. reflexivity.
Qed.

Lemma password_reset_flow_witness :
  UserRepository.get_user_by_email Sample.users "alice@example.com"
  = Ok (Some Sample.alice)
  /\ UserRepository.get_user_by_username Sample.users
       (username Sample.alice) = Ok (Some Sample.alice)
  /\ confirmed Sample.alice = true
  /\ Sample.verify_password "rabbit" (Sample.get_password_hash "rabbit")
     = true
  /\ 2000 <= 1000 + 604800
  /\ exists message task db',
       AuthApi.send_reset_password_token Sample.users "alice@example.com"
         "http://host/" = Ok (message, [task])
       /\ AuthApi.reset_password Sample.sign Sample.config
            Sample.get_password_hash Sample.users
            (Mail.body_token (Mail.run Sample.sign Sample.config task 1000))
            "rabbit" 2000
          = (db', Ok "Password updated successfully")
       /\ forall t, exists token,
            AuthApi.login_user Sample.sign Sample.config
              Sample.verify_password db' (username Sample.alice)
              "rabbit" t = Ok token.
Proof.
  assert (Hnow : 2000 <= 1000 + 604800) by lia.
  split; [reflexivity|]. split; [reflexivity|]. split; [reflexivity|].
  split; [reflexivity|]. split; [exact Hnow|].
  destruct (password_reset_flow Sample.sign Sample.config
              Sample.verify_password Sample.get_password_hash Sample.users
              "alice@example.com" "http://host/" "rabbit" Sample.alice
              1000 2000 eq_refl eq_refl eq_refl eq_refl Hnow)
    as [message [task [db' [H1 [H2 [H3 _]]]]]].
  exists message, task, db'. split; [exact H1|]. split; [exact H2|exact H3].
Defined.

(** ** Further edges *)

(** X11.  When today and the day a week later lie in the same month, the query
    returns every contact of the user born in that month, whatever the
    day: the whole month, not the week. *)
Theorem birthday_soon_whole_month
    (db : list Contact) (user : User) (today : date) (c : Contact)
    (b : date) :
  Calendar.valid today = true ->
  month (add_days today 7) = month today ->
  In c db -> user_id c = id user -> birthday c = Some b ->
  month b = month today ->
  In c (ContactRepository.get_contacts_birthday_soon db user today).
Proof.
  intros Hv Hsame Hin Hown Hb Hmonth.
  pose proof (valid_bounds today Hv) as [Hm Hd].
  assert (Hfit : day today + 7 <= days_in_month (year today) (month today)).
  { destruct (Z.le_gt_cases (day today + 7)
                (days_in_month (year today) (month today))) as [H|H];
      [exact H|].
    exfalso. revert Hsame.
    rewrite (add_days_next_month 7) by (assumption || lia).
    unfold rollover. destruct (Z.ltb_spec (month today) 12);
      cbn [month]; lia. }
  unfold ContactRepository.get_contacts_birthday_soon.
  apply filter_In. split; [exact Hin|].
  rewrite Hown, Z.eqb_refl. cbn [andb].
  apply (birthday_soon_same_month today _ c b Hb Hsame); [|exact Hmonth].
  rewrite (add_days_same_month 7 today Hv Hfit). cbn [day]. lia.
Qed.

Lemma birthday_soon_whole_month_witness :
  Calendar.valid (Date 2024 1 10) = true
  /\ month (add_days (Date 2024 1 10) 7) = month (Date 2024 1 10)
  /\ In Sample.john
       (ContactRepository.get_contacts_birthday_soon Sample.contacts
          Sample.bob (Date 2024 1 10)).
Proof.
  assert (Hv : Calendar.valid (Date 2024 1 10) = true)
    by (vm_compute; reflexivity).
  assert (Hs : month (add_days (Date 2024 1 10) 7)
               = month (Date 2024 1 10)) by (vm_compute; reflexivity).
  split; [exact Hv|]. split; [exact Hs|].
  exact (birthday_soon_whole_month Sample.contacts Sample.bob
           (Date 2024 1 10) Sample.john (Date 1990 1 25) Hv Hs
           (or_introl eq_refl) eq_refl eq_refl eq_refl).
Defined.

(** X26.  Only [RedisError] is caught around the cache lookup.  A cached value
    that does not deserialise fails the resolution with the error of the
    deserialisation, although the directory may hold the user; an empty
    cached value counts as a miss and the directory is consulted. *)
Theorem get_current_user_corrupt_entry
    (sign : string -> string -> gmap string json -> string)
    (config : Settings) (UserOut : Type) (dumps_user : User -> string)
    (loads_user : string -> result UserOut)
    (t : Jwt.token) (payload : gmap string json) (name text : string)
    (db : list User) (redis : Redis.client) (now : Z) :
  Jwt.decode sign t (JWT_SECRET config) [JWT_ALGORITHM config] now
  = Ok payload ->
  payload !! "sub" = Some (JStr name) ->
  Redis.get redis ("user:" +:+ name) now = Ok (Some text) ->
  (forall e,
     text <> "" -> loads_user text = Raise e -> e <> RedisError ->
     AuthService.get_current_user sign config UserOut dumps_user loads_user
       t db redis now
     = (Raise e, redis))
  /\ (forall u,
        text = "" ->
        UserRepository.get_user_by_username db name = Ok (Some u) ->
        exists redis',
          AuthService.get_current_user sign config UserOut dumps_user
            loads_user t db redis now
          = (Ok (AuthService.OrmUser u), redis')).
Proof.
  intros Hdec Hsub Hget.
  unfold AuthService.get_current_user.
  rewrite (subject_accepted sign config t now payload name Hdec Hsub).
  simpl Py.str. unfold AuthService.cached. rewrite Hget. simpl mbind.
  split.
  - intros e Htext Hload Hne.
    assert (Ht : truthy text = true)
      by (destruct text; [contradiction|reflexivity]).
    unfold AuthService.load_cached. rewrite Ht, Hload. simpl.
    destruct e; try reflexivity. contradiction.
  - intros u -> Hu. simpl.
    unfold UserService.get_user_by_username. rewrite Hu.
    rewrite refill_total. eexists. reflexivity.
Qed.

Lemma get_current_user_corrupt_entry_witness :
  Jwt.decode Sample.sign Sample.alice_token (JWT_SECRET Sample.config)
    [JWT_ALGORITHM Sample.config] 1500 = Ok Sample.alice_claims
  /\ Sample.alice_claims !! "sub" = Some (JStr "alice")
  /\ Redis.get Sample.corrupt_cache ("user:" +:+ "alice") 1500
     = Ok (Some "{broken")
  /\ "{broken" <> ""
  /\ JSONDecodeError <> RedisError
  /\ AuthService.get_current_user Sample.sign Sample.config string
       Sample.dumps_user Sample.loads_nothing Sample.alice_token
       Sample.users Sample.corrupt_cache 1500
     = (Raise JSONDecodeError, Sample.corrupt_cache).
Proof.
  assert (Hdec : Jwt.decode Sample.sign Sample.alice_token
                   (JWT_SECRET Sample.config) [JWT_ALGORITHM Sample.config]
                   1500 = Ok Sample.alice_claims)
    by (vm_compute; reflexivity).
  assert (Hsub : Sample.alice_claims !! "sub" = Some (JStr "alice"))
    by (vm_compute; reflexivity).
  assert (Hget : Redis.get Sample.corrupt_cache ("user:" +:+ "alice") 1500
                 = Ok (Some "{broken")) by (vm_compute; reflexivity).
  assert (H1 : "{broken" <> "") by discriminate.
  assert (H2 : JSONDecodeError <> RedisError) by discriminate.
  split; [exact Hdec|]. split; [exact Hsub|]. split; [exact Hget|].
  split; [exact H1|]. split; [exact H2|].
  exact (proj1 (get_current_user_corrupt_entry Sample.sign Sample.config
                  string Sample.dumps_user Sample.loads_nothing
                  Sample.alice_token Sample.alice_claims "alice" "{broken"
                  Sample.users Sample.corrupt_cache 1500 Hdec Hsub Hget)
           JSONDecodeError H1 eq_refl H2).
Defined.

(** X27.  The commit of [create_user] is not guarded.  When both checks of the
    registration pass and the storage engine still refuses the new row,
    the [IntegrityError] reaches the caller of the route instead of the
    409 response; the table is unchanged and no e-mail is scheduled. *)
Theorem register_user_commit_refused
    (get_password_hash : string -> string)
    (integrity : list User -> bool) (next_id : list User -> Z)
    (new_avatar : option string) (db : list User)
    (data : UserRepository.UserCreate) (url : string) :
  UserRepository.get_user_by_email db (UserRepository.body_email data)
  = Ok None ->
  UserRepository.get_user_by_username db
    (UserRepository.body_username data) = Ok None ->
  integrity
    (db ++ [mkUser (next_id db) (UserRepository.body_username data)
              (UserRepository.body_email data)
              (get_password_hash (UserRepository.body_password data))
              (UserRepository.body_role data) false new_avatar]) = false ->
  AuthApi.register_user get_password_hash integrity next_id new_avatar
    db data url
  = (db, Raise IntegrityError).
Proof.
  intros He Hn Hno.
  unfold AuthApi.register_user, UserService.get_user_by_email,
    UserService.get_user_by_username, UserService.create_user,
    UserRepository.create_user.
  rewrite He, Hn. simpl. now rewrite Hno.
Qed.

Lemma register_user_commit_refused_witness :
  UserRepository.get_user_by_email Sample.users "carol@example.com"
  = Ok None
  /\ UserRepository.get_user_by_username Sample.users "carol" = Ok None
  /\ AuthApi.register_user Sample.get_password_hash Sample.two_users_at_most
       Sample.user_serial None Sample.users Sample.carol "http://host/"
     = (Sample.users, Raise IntegrityError).
Proof.
  split; [reflexivity|]. split; [reflexivity|].
  exact (register_user_commit_refused Sample.get_password_hash
           Sample.two_users_at_most
           Sample.user_serial None Sample.users Sample.carol "http://host/"
           eq_refl eq_refl eq_refl).
Defined.
